(** * SimpleTradingEnv: a shallow embedding of the trading environment

    The notebook's [SimpleTradingEnv] (a Gym environment over a pandas
    table of price bars) is embedded as a record of the object's attributes
    and a small state-and-exception monad over it.  The class is embedded
    twice.

    The exact model.  Python floats are exact rationals ([Q]): no rounding,
    and the final [astype(np.float32)] of an observation left out.  The one
    number that enters from outside the price table, the action, is a
    [pyfloat]: a rational or one of the IEEE special values (+inf, -inf,
    NaN), with the comparison, product, [abs], [int] and [np.clip] rules of
    Python and NumPy on them.  The statements on the structure of a step,
    of an episode and of the functions around the environment are made on
    this model.

    The binary64 model (module [B64]).  Every float is a binary64 value
    and every operation is the one Python and NumPy perform: rounded
    products, sums and differences, CPython's floor division, the
    conversions between integers and floats with the errors they raise,
    NumPy's clip, the cast to float32.  The statements that depend on
    rounding or on the errors of float arithmetic are made on this model.

    In both models Python integers are [Z]; the lookback and the cursor,
    which starts at the lookback and only grows, are naturals. *)

From Stdlib Require Import Floats.
From Stdlib Require Import List ZArith QArith Qround Qabs Lia Lqa Bool.
Import ListNotations.

Local Open Scope Z_scope.

(** ** Python exceptions and the result of a call *)

Inductive exn : Type :=
  | IndexError
  | ZeroDivisionError
  | ValueError
  | OverflowError.

Inductive result (A : Type) : Type :=
  | OK (a : A)
  | Raise (e : exn).

Arguments OK {A} a.
Arguments Raise {A} e.

(** ** Floats with the IEEE special values *)

Module PyFloat.

Inductive pyfloat : Type :=
  | Fin (q : Q)
  | PInf
  | NInf
  | NaN.

Definition Qlt_bool (p q : Q) : bool := negb (Qle_bool q p).

(** [x < y]; every comparison with NaN is false. *)
Definition pf_ltb (x y : pyfloat) : bool :=
  match x, y with
  | NaN, _ | _, NaN => false
  | Fin p, Fin q => Qlt_bool p q
  | NInf, NInf => false
  | NInf, _ => true
  | PInf, _ => false
  | Fin _, PInf => true
  | Fin _, NInf => false
  end.

(** [x > y] *)
Definition pf_gtb (x y : pyfloat) : bool := pf_ltb y x.

(** [np.maximum] and [np.minimum]: a NaN operand gives NaN. *)
Definition np_maximum (x y : pyfloat) : pyfloat :=
  match x, y with
  | NaN, _ | _, NaN => NaN
  | _, _ => if pf_ltb x y then y else x
  end.

Definition np_minimum (x y : pyfloat) : pyfloat :=
  match x, y with
  | NaN, _ | _, NaN => NaN
  | _, _ => if pf_ltb y x then y else x
  end.

(** [np.clip(a, a_min, a_max)] is [np.minimum(a_max, np.maximum(a, a_min))]. *)
Definition np_clip (a a_min a_max : pyfloat) : pyfloat :=
  np_minimum (np_maximum a a_min) a_max.

Definition pf_abs (x : pyfloat) : pyfloat :=
  match x with
  | Fin q => Fin (Qabs q)
  | PInf | NInf => PInf
  | NaN => NaN
  end.

(** inf * p for a finite p: NaN at zero, else the sign of p. *)
Definition inf_times (p : Q) : pyfloat :=
  if Qeq_bool p 0 then NaN else if Qle_bool 0 p then PInf else NInf.

(** [x * y], the product of finite operands taken exactly. *)
Definition pf_mul (x y : pyfloat) : pyfloat :=
  match x, y with
  | NaN, _ | _, NaN => NaN
  | Fin p, Fin q => Fin (p * q)
  | Fin p, PInf | PInf, Fin p => inf_times p
  | Fin p, NInf | NInf, Fin p => inf_times (- p)
  | PInf, PInf | NInf, NInf => PInf
  | PInf, NInf | NInf, PInf => NInf
  end.

(** Truncation toward zero. *)
Definition Qtrunc (q : Q) : Z := Z.quot (Qnum q) (Z.pos (Qden q)).

(** [int(x)]: truncation toward zero; [int(nan)] raises ValueError and
    [int(inf)] raises OverflowError. *)
Definition py_int (x : pyfloat) : result Z :=
  match x with
  | Fin q => OK (Qtrunc q)
  | PInf | NInf => Raise OverflowError
  | NaN => Raise ValueError
  end.

(** [x // y] in exact arithmetic: the floor of the quotient; a zero
    divisor raises ZeroDivisionError.  ([B64.py_floordiv] is the binary64
    operation, which can differ from the floor by rounding.) *)
Definition py_floordiv (x y : Q) : result Q :=
  if Qeq_bool y 0 then Raise ZeroDivisionError
  else OK (inject_Z (Qfloor (x / y))).

End PyFloat.
Export PyFloat.

(** ** The price table *)

Record Bar : Type := mkBar {
  Open : Q;
  High : Q;
  Low : Q;
  Close : Q;
  SMA5 : Q;
  SMA20 : Q
}.

Module Pandas.

Definition DataFrame : Type := list Bar.

(** [df.iloc[i]] for a non-negative position: IndexError past the end. *)
Definition iloc (df : DataFrame) (i : nat) : result Bar :=
  match nth_error df i with
  | Some row => OK row
  | None => Raise IndexError
  end.

(** A slice bound of Python: a negative bound counts from the end, and
    both bounds are clipped to the table. *)
Definition slice_bound (len i : Z) : Z :=
  if i <? 0 then Z.max 0 (i + len) else Z.min i len.

(** [df.iloc[start:stop]]: never raises. *)
Definition iloc_slice (df : DataFrame) (start stop : Z) : DataFrame :=
  let len := Z.of_nat (length df) in
  let a := slice_bound len start in
  let b := slice_bound len stop in
  firstn (Z.to_nat (b - a)) (skipn (Z.to_nat a) df).

End Pandas.
Export Pandas.

(** ** The environment object *)

Record Env : Type := mkEnv {
  df : DataFrame;
  lookback : nat;
  n_steps : nat;
  current_step : nat;
  cash : Q;
  stock_owned : Z;
  initial_cash : Q;
  trade_penalty_factor : Q
}.

Definition set_current_step (v : nat) (s : Env) : Env :=
  mkEnv (df s) (lookback s) (n_steps s) v (cash s) (stock_owned s)
        (initial_cash s) (trade_penalty_factor s).

Definition set_cash (v : Q) (s : Env) : Env :=
  mkEnv (df s) (lookback s) (n_steps s) (current_step s) v (stock_owned s)
        (initial_cash s) (trade_penalty_factor s).

Definition set_stock_owned (v : Z) (s : Env) : Env :=
  mkEnv (df s) (lookback s) (n_steps s) (current_step s) (cash s) v
        (initial_cash s) (trade_penalty_factor s).

(** [SimpleTradingEnv.__init__(df, lookback)] *)
Definition init (table : DataFrame) (lb : nat) : Env :=
  {| df := table;
     lookback := lb;
     n_steps := length table;
     current_step := lb;
     cash := 10000 # 1;
     stock_owned := 0;
     initial_cash := 10000 # 1;
     trade_penalty_factor := 1 # 100 |}.

(** The attribute [state_size] of [__init__], the length announced for an
    observation: [(4 + 2) * lookback + 2]. *)
Definition state_size (s : Env) : nat := ((4 + 2) * lookback s + 2)%nat.

(** ** Methods run in a state monad with exceptions

    A method reads and assigns the attributes of [self]; when it raises,
    the object stays as the assignments made so far left it. *)

Definition M (A : Type) : Type := Env -> result A * Env.

Definition ret {A : Type} (a : A) : M A := fun s => (OK a, s).

Definition bind {A B : Type} (m : M A) (k : A -> M B) : M B :=
  fun s =>
    match m s with
    | (OK a, s') => k a s'
    | (Raise e, s') => (Raise e, s')
    end.

Definition lift {A : Type} (r : result A) : M A := fun s => (r, s).

Definition self_ {A : Type} (attr : Env -> A) : M A := fun s => (OK (attr s), s).

Definition assign (upd : Env -> Env) : M unit := fun s => (OK tt, upd s).

Declare Scope monad_scope.
Delimit Scope monad_scope with monad.
Notation "x <- m ;; k" := (bind m (fun x => k))
  (at level 61, m at next level, right associativity) : monad_scope.
Notation "m ;; k" := (bind m (fun _ => k))
  (at level 61, right associativity) : monad_scope.

Local Open Scope monad_scope.

Definition Observation : Type := list Q.

(** [_get_obs]: the OHLC rows of the lookback window flattened row by row,
    then the SMA5 column, the SMA20 column, the cash and the holdings. *)
Definition _get_obs : M Observation :=
  cs <- self_ current_step ;;
  lb <- self_ lookback ;;
  table <- self_ df ;;
  let frame := iloc_slice table (Z.of_nat cs - Z.of_nat lb) (Z.of_nat cs) in
  let ohlc := flat_map (fun r => [Open r; High r; Low r; Close r]) frame in
  let sma5 := map SMA5 frame in
  let sma20 := map SMA20 frame in
  c <- self_ cash ;;
  k <- self_ stock_owned ;;
  ret (ohlc ++ sma5 ++ sma20 ++ [c] ++ [inject_Z k]).

Definition reset : M Observation :=
  lb <- self_ lookback ;;
  assign (set_current_step lb) ;;
  c0 <- self_ initial_cash ;;
  assign (set_cash c0) ;;
  assign (set_stock_owned 0) ;;
  _get_obs.

(** The local variables of one [step] call. *)
Record Locals : Type := mkLocals {
  price : Q;
  prev_total_asset : Q;
  action : pyfloat;
  shares_traded : Z;
  done : bool;
  next_obs : Observation;
  next_price : Q;
  new_total_asset : Q;
  reward : Q
}.

(** The threshold [step] binds to its local [min_trade_amount]. *)
Definition min_trade_amount : Z := 1.

(** Buy logic (the branch [action > 0]). *)
Definition buy (act : pyfloat) (p : Q) : M Z :=
  c <- self_ cash ;;
  d <- lift (py_floordiv c p) ;;
  max_buy <- lift (py_int (Fin d)) ;;
  shares_bought <- lift (py_int (pf_mul act (Fin (inject_Z max_buy)))) ;;
  if min_trade_amount <=? shares_bought then
    c <- self_ cash ;;
    assign (set_cash (c - inject_Z shares_bought * p)%Q) ;;
    k <- self_ stock_owned ;;
    assign (set_stock_owned (k + shares_bought)) ;;
    ret shares_bought
  else ret 0.

(** Sell logic (the branch [action < 0]). *)
Definition sell (act : pyfloat) (p : Q) : M Z :=
  k <- self_ stock_owned ;;
  shares_sold <- lift (py_int (pf_mul (pf_abs act) (Fin (inject_Z k)))) ;;
  if min_trade_amount <=? shares_sold then
    c <- self_ cash ;;
    assign (set_cash (c + inject_Z shares_sold * p)%Q) ;;
    k <- self_ stock_owned ;;
    assign (set_stock_owned (k - shares_sold)) ;;
    ret shares_sold
  else ret 0.

(** The body of [step], its local variables kept. *)
Definition step_locals (action_in : pyfloat) : M Locals :=
  cs <- self_ current_step ;;
  table <- self_ df ;;
  row <- lift (iloc table cs) ;;
  let price := Close row in
  c <- self_ cash ;;
  k <- self_ stock_owned ;;
  let prev_total_asset := (c + inject_Z k * price)%Q in
  let action := np_clip action_in (Fin (-1)) (Fin 1) in
  shares_traded <-
    (if pf_gtb action (Fin 0) then buy action price
     else if pf_ltb action (Fin 0) then sell action price
     else ret 0) ;;
  cs <- self_ current_step ;;
  assign (set_current_step (cs + 1)%nat) ;;
  cs <- self_ current_step ;;
  n <- self_ n_steps ;;
  let done := Z.of_nat n - 1 <=? Z.of_nat cs in
  next_obs <- _get_obs ;;
  next_price <-
    (if negb done then
       table <- self_ df ;;
       row' <- lift (iloc table cs) ;;
       ret (Close row')
     else ret price) ;;
  c <- self_ cash ;;
  k <- self_ stock_owned ;;
  let new_total_asset := (c + inject_Z k * next_price)%Q in
  f <- self_ trade_penalty_factor ;;
  let reward := (new_total_asset - prev_total_asset - f * inject_Z shares_traded)%Q in
  ret (mkLocals price prev_total_asset action shares_traded done next_obs
                next_price new_total_asset reward).

(** [step(action)]: what the caller receives (the empty info map left out). *)
Definition step (action_in : pyfloat) : M (Observation * Q * bool) :=
  l <- step_locals action_in ;;
  ret (next_obs l, reward l, done l).

(** ** The episode loop of the notebook

    [collect_rewards] and [eval_agent] reset the environment and call
    [step] with the policy's action until [done]; the loop is given fuel
    here.  The k-th call of [model.predict] sees the last observation. *)

Definition Policy : Type := nat -> Observation -> pyfloat.

Fixpoint episode_loop (predict : Policy) (fuel k : nat) (obs : Observation)
    (rewards : list Q) : M (option (list Q)) :=
  match fuel with
  | O => ret None
  | S fuel' =>
      out <- step (predict k obs) ;;
      let '(obs', r, d) := out in
      if d then ret (Some (rewards ++ [r]))
      else episode_loop predict fuel' (S k) obs' (rewards ++ [r])
  end.

Definition run_episode (predict : Policy) (fuel : nat) : M (option (list Q)) :=
  obs <- reset ;;
  episode_loop predict fuel 0%nat obs [].

(** [collect_rewards(model, df)]: a fresh environment with lookback 5. *)
Definition collect_rewards (predict : Policy) (table : DataFrame) (fuel : nat)
  : result (option (list Q)) :=
  fst (run_episode predict fuel (init table 5)).

(** A sequence of [step] calls, whatever each one returns. *)
Fixpoint steps (acts : list pyfloat) (s : Env) : Env :=
  match acts with
  | [] => s
  | a :: acts' => steps acts' (snd (step a s))
  end.

(** ** Reachable states *)

(** [n_steps] is the length of the table, as [__init__] sets it. *)
Definition wf (s : Env) : Prop := n_steps s = length (df s).

(** States reached from a reset by any calls of [step], also calls that
    raise and calls made after [done]. *)
Inductive reachable (s0 : Env) : Env -> Prop :=
  | reach_reset : reachable s0 (snd (reset s0))
  | reach_step (s : Env) (a : pyfloat) :
      reachable s0 s -> reachable s0 (snd (step a s)).

(** States of an episode run as the notebook's loops do: a reset, then
    [step] calls, none of them made after a call that returned [done].
    The flag tells whether the last call returned [done] (Terminated) or
    not (Ready or Active). *)
Inductive in_episode (s0 : Env) : bool -> Env -> Prop :=
  | ep_reset : in_episode s0 false (snd (reset s0))
  | ep_step (s s' : Env) (a : pyfloat) (o : Observation) (r : Q) (d : bool) :
      in_episode s0 false s ->
      step a s = (OK (o, r, d), s') ->
      in_episode s0 d s'.

(** ** Example environments

    Eight bars with constant close 100 and lookback 2, as [__init__]
    builds the environment. *)

Definition flat_bar : Bar := mkBar 100 100 100 100 100 100.

Definition flat8 : Env := init (repeat flat_bar 8) 2.

(** Four bars with closes 10, 20, 30, 40 and lookback 1. *)
Definition rising4 : Env :=
  init [mkBar 10 10 10 10 10 10; mkBar 20 20 20 20 20 20;
        mkBar 30 30 30 30 30 30; mkBar 40 40 40 40 40 40] 1.

Definition rising4_end : Env := steps [Fin 0; Fin 0] (snd (reset rising4)).

(** The reward, the flag and the portfolio a call leaves. *)
Definition outcome (r : result (Observation * Q * bool) * Env)
  : result (Q * bool * Q * Z) :=
  match r with
  | (OK (_, rew, d), s') => OK (Qred rew, d, Qred (cash s'), stock_owned s')
  | (Raise e, _) => Raise e
  end.

(** ** The closed form of a call

    What [_get_obs] and [step] compute, written without the monad; the
    lemmas below show that the methods above compute exactly this. *)

Definition window (s : Env) : DataFrame :=
  iloc_slice (df s) (Z.of_nat (current_step s) - Z.of_nat (lookback s))
             (Z.of_nat (current_step s)).

Definition encode (s : Env) : Observation :=
  flat_map (fun r => [Open r; High r; Low r; Close r]) (window s)
  ++ map SMA5 (window s) ++ map SMA20 (window s)
  ++ [cash s] ++ [inject_Z (stock_owned s)].

Definition buy_size (q c p : Q) : Z := Qtrunc (q * inject_Z (Qfloor (c / p))).

Definition sell_size (q : Q) (k : Z) : Z := Qtrunc (Qabs q * inject_Z k).

Definition bought (n : Z) (p : Q) (s : Env) : Env :=
  set_stock_owned (stock_owned s + n) (set_cash (cash s - inject_Z n * p)%Q s).

Definition sold (n : Z) (p : Q) (s : Env) : Env :=
  set_stock_owned (stock_owned s - n) (set_cash (cash s + inject_Z n * p)%Q s).

(** The trade of a step on a clipped action, which is finite or NaN. *)
Definition trade_pure (act : pyfloat) (p : Q) (s : Env) : result Z * Env :=
  match act with
  | Fin q =>
      if Qlt_bool 0 q then
        if Qeq_bool p 0 then (Raise ZeroDivisionError, s)
        else if min_trade_amount <=? buy_size q (cash s) p
             then (OK (buy_size q (cash s) p), bought (buy_size q (cash s) p) p s)
             else (OK 0, s)
      else if Qlt_bool q 0 then
        if min_trade_amount <=? sell_size q (stock_owned s)
        then (OK (sell_size q (stock_owned s)), sold (sell_size q (stock_owned s)) p s)
        else (OK 0, s)
      else (OK 0, s)
  | _ => (OK 0, s)
  end.

Definition is_done (s : Env) : bool :=
  Z.of_nat (n_steps s) - 1 <=? Z.of_nat (current_step s).

Definition locals_after (row : Bar) (act : pyfloat) (s : Env) (t : Z) (s2 : Env)
    (np : Q) : Locals :=
  let prev := (cash s + inject_Z (stock_owned s) * Close row)%Q in
  let new := (cash s2 + inject_Z (stock_owned s2) * np)%Q in
  mkLocals (Close row) prev act t (is_done s2) (encode s2) np new
           (new - prev - trade_penalty_factor s2 * inject_Z t)%Q.

Definition finish (row : Bar) (act : pyfloat) (s : Env) (t : Z) (s1 : Env)
  : result Locals * Env :=
  let s2 := set_current_step (current_step s1 + 1)%nat s1 in
  if is_done s2 then (OK (locals_after row act s t s2 (Close row)), s2)
  else match nth_error (df s2) (current_step s2) with
       | Some row' => (OK (locals_after row act s t s2 (Close row')), s2)
       | None => (Raise IndexError, s2)
       end.

Definition step_pure (a : pyfloat) (s : Env) : result Locals * Env :=
  match nth_error (df s) (current_step s) with
  | None => (Raise IndexError, s)
  | Some row =>
      let act := np_clip a (Fin (-1)) (Fin 1) in
      match trade_pure act (Close row) s with
      | (OK t, s1) => finish row act s t s1
      | (Raise e, s1) => (Raise e, s1)
      end
  end.

(** ** Predicates the statements use *)

(** The clamp of the specification: [a] brought into [[lo, hi]]. *)
Definition clamp (a lo hi : Q) : Q :=
  if Qlt_bool a lo then lo else if Qlt_bool hi a then hi else a.

(** The attributes no method assigns after [__init__]. *)
Definition same_config (s s' : Env) : Prop :=
  df s' = df s /\ lookback s' = lookback s /\ n_steps s' = n_steps s /\
  initial_cash s' = initial_cash s /\
  trade_penalty_factor s' = trade_penalty_factor s.

(** The three ways the trade of a step ends when it does not raise. *)
Inductive trade_case (act : pyfloat) (p : Q) (s : Env) : Z -> Env -> Prop :=
  | trade_none :
      (forall q, act = Fin q ->
         (q == 0)%Q \/
         ((0 < q)%Q /\ buy_size q (cash s) p < min_trade_amount) \/
         ((q < 0)%Q /\ sell_size q (stock_owned s) < min_trade_amount)) ->
      trade_case act p s 0 s
  | trade_buy (q : Q) :
      act = Fin q -> (0 < q)%Q -> min_trade_amount <= buy_size q (cash s) p ->
      trade_case act p s (buy_size q (cash s) p)
                 (bought (buy_size q (cash s) p) p s)
  | trade_sell (q : Q) :
      act = Fin q -> (q < 0)%Q -> min_trade_amount <= sell_size q (stock_owned s) ->
      trade_case act p s (sell_size q (stock_owned s))
                 (sold (sell_size q (stock_owned s)) p s).

(** The price the reward values the new portfolio at. *)
Definition next_price_rule (s : Env) (row : Bar) (s2 : Env) (np : Q) : Prop :=
  (is_done s2 = true /\ np = Close row) \/
  (is_done s2 = false /\
   exists row', nth_error (df s) (current_step s + 1)%nat = Some row' /\
                np = Close row').

Definition prices_positive (table : DataFrame) : Prop :=
  Forall (fun b => (0 < Close b)%Q) table.

Definition ohlc_of (w : DataFrame) : list Q :=
  flat_map (fun r => [Open r; High r; Low r; Close r]) w.

(** [o] is the observation of the state [s]: the [lookback] bars before
    the cursor in the order of the table, as OHLC rows, then their SMA5
    values, then their SMA20 values, then the cash and the holdings. *)
Definition laid_out (s : Env) (o : Observation) : Prop :=
  exists w : DataFrame,
    length w = lookback s /\
    (forall i, (i < lookback s)%nat ->
       exists bar, nth_error w i = Some bar /\
                   nth_error (df s) (current_step s - lookback s + i) = Some bar) /\
    o = ohlc_of w ++ map SMA5 w ++ map SMA20 w
        ++ [cash s; inject_Z (stock_owned s)] /\
    length (ohlc_of w) = (4 * lookback s)%nat /\
    length o = (6 * lookback s + 2)%nat /\
    length o = state_size s.

(** ** The rest of the notebook

    The functions around the environment: the chronological split, the
    evaluation loop, the buy-and-hold baseline and the padding and
    averaging of reward sequences. *)

(** [df[:k]] and [df[k:]]: a missing bound is the start or the end. *)
Definition slice_to (df : DataFrame) (k : Z) : DataFrame := iloc_slice df 0 k.

Definition slice_from (df : DataFrame) (k : Z) : DataFrame :=
  iloc_slice df k (Z.of_nat (length df)).

(** [train_test_split(df, train_ratio)] with the product [len(df) *
    train_ratio] taken exactly; the copies are the slices.
    ([B64.train_test_split] takes the binary64 product.) *)
Definition train_test_split (df : DataFrame) (train_ratio : Q)
  : DataFrame * DataFrame :=
  let train_size := Qtrunc (inject_Z (Z.of_nat (length df)) * train_ratio) in
  (slice_to df train_size, slice_from df train_size).

(** [df.iloc[i]] for any integer: a negative position counts from the end. *)
Definition iloc_int (df : DataFrame) (i : Z) : result Bar :=
  let len := Z.of_nat (length df) in
  let j := if i <? 0 then i + len else i in
  if (j <? 0) || (len <=? j) then Raise IndexError else iloc df (Z.to_nat j).

(** The loop of [eval_agent]: as [collect_rewards], without the rewards. *)
Fixpoint eval_loop (predict : Policy) (fuel k : nat) (obs : Observation)
  : M (option unit) :=
  match fuel with
  | O => ret None
  | S fuel' =>
      out <- step (predict k obs) ;;
      let '(obs', _, d) := out in
      if d then ret (Some tt) else eval_loop predict fuel' (S k) obs'
  end.

(** [eval_agent(model, env)]: the portfolio after the episode, valued at
    the close of the bar before the cursor. *)
Definition eval_agent (predict : Policy) (fuel : nat) : M (option Q) :=
  obs <- reset ;;
  fin <- eval_loop predict fuel 0%nat obs ;;
  match fin with
  | None => ret None
  | Some _ =>
      cs <- self_ current_step ;;
      table <- self_ df ;;
      row <- lift (iloc_int table (Z.of_nat cs - 1)) ;;
      let final_price := Close row in
      c <- self_ cash ;;
      k <- self_ stock_owned ;;
      ret (Some (c + inject_Z k * final_price)%Q)
  end.

(** The buy-and-hold baseline of the main loop: 10 shares bought at the
    first close of the test table, if 10000 pays for them, and valued at
    the last close. *)
Definition buy_hold_val (test_df : DataFrame) : result Q :=
  match iloc_int test_df 0 with
  | Raise e => Raise e
  | OK first_row =>
      match iloc_int test_df (-1) with
      | Raise e => Raise e
      | OK last_row =>
          let buy_hold_cash := 10000%Q in
          let buy_hold_shares := 10%Q in
          let start_price := Close first_row in
          let end_price := Close last_row in
          let total_cost := (buy_hold_shares * start_price)%Q in
          let cash_left :=
            if Qle_bool total_cost buy_hold_cash
            then (buy_hold_cash - total_cost)%Q else 0%Q in
          OK (cash_left + buy_hold_shares * end_price)%Q
      end
  end.

(** [price_change] of the main loop: last close minus first close. *)
Definition price_change (test_df : DataFrame) : result Q :=
  match iloc_int test_df (-1) with
  | Raise e => Raise e
  | OK last_row =>
      match iloc_int test_df 0 with
      | Raise e => Raise e
      | OK first_row => OK (Close last_row - Close first_row)%Q
      end
  end.

(** [max(len(s) for s in seq_list)]: ValueError on an empty list. *)
Definition max_len_of (seq_list : list (list Q)) : result nat :=
  match seq_list with
  | [] => Raise ValueError
  | _ => OK (fold_right Nat.max 0%nat (map (@length Q) seq_list))
  end.

(** [pad_sequences(seq_list)]: every sequence padded with NaN on the right
    to the length of the longest. *)
Definition pad_sequences (seq_list : list (list Q)) : result (list (list pyfloat)) :=
  match max_len_of seq_list with
  | Raise e => Raise e
  | OK max_len =>
      OK (map (fun s => map Fin s ++ repeat NaN (max_len - length s)) seq_list)
  end.

Definition is_nan (x : pyfloat) : bool :=
  match x with NaN => true | _ => false end.

Definition pf_add (x y : pyfloat) : pyfloat :=
  match x, y with
  | NaN, _ | _, NaN => NaN
  | Fin p, Fin q => Fin (p + q)
  | PInf, NInf | NInf, PInf => NaN
  | PInf, _ | _, PInf => PInf
  | NInf, _ | _, NInf => NInf
  end.

(** [x / n] for a count [n] of at least 1. *)
Definition pf_div_count (x : pyfloat) (n : nat) : pyfloat :=
  match x with
  | Fin q => Fin (q / inject_Z (Z.of_nat n))
  | other => other
  end.

Definition pf_sum (xs : list pyfloat) : pyfloat := fold_right pf_add (Fin 0) xs.

(** [np.nanmean] of one column: the mean of the entries that are not NaN,
    NaN when there is none. *)
Definition nanmean (col : list pyfloat) : pyfloat :=
  match filter (fun x => negb (is_nan x)) col with
  | [] => NaN
  | xs => pf_div_count (pf_sum xs) (length xs)
  end.

(** [np.nanmean(arr, axis=0)] of a two-dimensional array given by its
    rows: one mean per column. *)
Definition nanmean_axis0 (arr : list (list pyfloat)) : list pyfloat :=
  match arr with
  | [] => []
  | row :: _ =>
      map (fun j => nanmean (map (fun r => nth j r NaN) arr))
          (seq 0 (length row))
  end.

Definition Qsum (l : list Q) : Q := fold_right Qplus 0%Q l.

(** The j-th entries of the sequences that have one. *)
Definition entries_at (j : nat) (seq_list : list (list Q)) : list Q :=
  flat_map (fun s => match nth_error s j with Some x => [x] | None => [] end)
           seq_list.


(** ** The preparation of the table in the main loop

    A cell of the downloaded table is a number or NaN ([None]). *)

Record RawRow : Type := mkRaw {
  raw_open : option Q;
  raw_high : option Q;
  raw_low : option Q;
  raw_close : option Q
}.

Record OHLC : Type := mkOHLC {
  o_open : Q;
  o_high : Q;
  o_low : Q;
  o_close : Q
}.

(** [raw[["Open", "High", "Low", "Close"]].dropna()]: the rows without a
    NaN, in order. *)
Definition dropna_raw (raw : list RawRow) : list OHLC :=
  flat_map (fun r =>
              match raw_open r, raw_high r, raw_low r, raw_close r with
              | Some o, Some h, Some l, Some c => [mkOHLC o h l c]
              | _, _, _, _ => []
              end) raw.

(** [series.rolling(window=w).mean()] on a column without NaN: NaN until
    [w] values are there, then the mean of the last [w] values. *)
Definition rolling_mean (w : nat) (xs : list Q) : list (option Q) :=
  map (fun i =>
         if (w <=? i + 1)%nat
         then Some (Qsum (firstn w (skipn (i + 1 - w) xs)) / inject_Z (Z.of_nat w))%Q
         else None)
      (seq 0 (length xs)).

(** The table with its two indicator columns, then [dropna()] again. *)
Definition with_sma (rows : list OHLC) : list (OHLC * option Q * option Q) :=
  combine (combine rows (rolling_mean 5 (map o_close rows)))
          (rolling_mean 20 (map o_close rows)).

Definition dropna_sma (t : list (OHLC * option Q * option Q)) : DataFrame :=
  flat_map (fun x =>
              match x with
              | (r, Some a, Some b) =>
                  [mkBar (o_open r) (o_high r) (o_low r) (o_close r) a b]
              | _ => []
              end) t.

Definition preprocess (raw : list RawRow) : DataFrame :=
  dropna_sma (with_sma (dropna_raw raw)).

(** The mean of the [w] closes that end at row [i]. *)
Definition close_mean (w : nat) (rows : list OHLC) (i : nat) : Q :=
  (Qsum (firstn w (skipn (i + 1 - w) (map o_close rows))) / inject_Z (Z.of_nat w))%Q.

(** Twenty-one complete rows with closes 1 to 21, and one row with a NaN. *)
Definition raw22 : list RawRow :=
  mkRaw (Some 1%Q) None (Some 1%Q) (Some 1%Q)
  :: map (fun i => let c := Some (inject_Z (Z.of_nat i)) in mkRaw c c c c) (seq 1 21).

(** ** The calls of an episode

    The loop of [collect_rewards] once more, keeping the local variables
    of each [step] call in the place of its reward alone. *)

Fixpoint locals_loop (predict : Policy) (fuel k : nat) (obs : Observation)
    (calls : list Locals) : M (option (list Locals)) :=
  match fuel with
  | O => ret None
  | S fuel' =>
      l <- step_locals (predict k obs) ;;
      if done l then ret (Some (calls ++ [l]))
      else locals_loop predict fuel' (S k) (next_obs l) (calls ++ [l])
  end.

Definition episode_locals (predict : Policy) (fuel : nat)
  : M (option (list Locals)) :=
  obs <- reset ;;
  locals_loop predict fuel 0%nat obs [].


(** ** The environment in binary64

    The same class once more, with every float a binary64 value
    ([PrimFloat.float]) and every operation the one Python and NumPy
    perform on it, rounding, signed zeros, infinities and NaN included.
    The statements that depend on rounding or on the errors float
    arithmetic raises ([int] of an infinity or a NaN, an integer too large
    for a float) are made on this model.

    The attribute [cash] is a float here.  [__init__] and [reset] bind it
    to the integer 10000, which every operation of the class ([//], [+],
    [-], the cast of the observation) first converts to the float 10000.0,
    exactly; after the first trade it is a float in the code, too. *)

Module B64.

Import PrimFloat SpecFloat FloatOps.

(** The binary64 value nearest to [m * 2^e] (ties to even; beyond the
    largest finite value, an infinity). *)
Definition round64 (m e : Z) (szero : bool) : float :=
  SF2Prim (binary_normalize prec emax m e szero).

(** [float(k)] for a Python integer, which [k * x] and [x * k] apply to the
    integer operand: the nearest float, OverflowError when there is none. *)
Definition float_of_int (k : Z) : result float :=
  let x := round64 k 0 false in
  if is_infinity x then Raise OverflowError else OK x.

(** [int(x)]: truncation toward zero, exact; [int(nan)] raises ValueError and
    [int(inf)] raises OverflowError. *)
Definition py_int (x : float) : result Z :=
  match Prim2SF x with
  | S754_nan => Raise ValueError
  | S754_infinity _ => Raise OverflowError
  | S754_zero _ => OK 0
  | S754_finite s m e =>
      let v := if 0 <=? e then Z.pos m * 2 ^ e else Z.quot (Z.pos m) (2 ^ (- e)) in
      OK (if s then - v else v)
  end.

(** C's [fmod]: the exact remainder of [x / y] with the sign of [x]. *)
Definition c_fmod (x y : float) : float :=
  match Prim2SF x, Prim2SF y with
  | S754_nan, _ | _, S754_nan => nan
  | S754_infinity _, _ => nan
  | _, S754_zero _ => nan
  | _, S754_infinity _ => x
  | S754_zero _, _ => x
  | S754_finite sx mx ex, S754_finite _ my ey =>
      let e := Z.min ex ey in
      let r := Z.modulo (Z.pos mx * 2 ^ (ex - e)) (Z.pos my * 2 ^ (ey - e)) in
      round64 (if sx then - r else r) e sx
  end.

(** C's [floor]. *)
Definition c_floor (x : float) : float :=
  match Prim2SF x with
  | S754_finite s m e =>
      if 0 <=? e then x
      else round64 (Z.div (if s then Z.neg m else Z.pos m) (2 ^ (- e))) 0 s
  | _ => x
  end.

(** [copysign(0.0, x)] *)
Definition copysign_zero (x : float) : float :=
  if get_sign x then neg_zero else zero.

(** The truth value of a C double: anything but a zero. *)
Definition nonzero (x : float) : bool := negb (x =? 0)%float.

(** [vx // wx] on floats, as CPython computes it ([float_floor_div] and
    [_float_div_mod] of floatobject.c): the quotient is formed from the
    exact remainder by a rounded subtraction and a rounded division, then
    snapped to a whole number.  A zero divisor raises ZeroDivisionError. *)
Definition py_floordiv (vx wx : float) : result float :=
  if (wx =? 0)%float then Raise ZeroDivisionError
  else
    let mod_ := c_fmod vx wx in
    let div := ((vx - mod_) / wx)%float in
    let div :=
      if nonzero mod_ && negb (Bool.eqb (wx <? 0)%float (mod_ <? 0)%float)
      then (div - 1)%float else div in
    if nonzero div then
      let floordiv := c_floor div in
      OK (if (0.5 <? div - floordiv)%float then (floordiv + 1)%float else floordiv)
    else OK (copysign_zero (vx / wx)%float).

(** The cast of a double to float32 ([astype(np.float32)]), as a double. *)
Definition float32 (x : float) : float :=
  match Prim2SF x with
  | S754_finite s m e =>
      SF2Prim (binary_normalize 24 128 (if s then Z.neg m else Z.pos m) e s)
  | _ => x
  end.

(** [np.clip(a, a_min, a_max)] on doubles: NumPy's loop computes
    [_NPY_MIN(_NPY_MAX(a, a_min), a_max)], and both keep a NaN first
    operand. *)
Definition npy_max (a b : float) : float :=
  if PrimFloat.is_nan a || (b <? a)%float then a else b.

Definition npy_min (a b : float) : float :=
  if PrimFloat.is_nan a || (a <? b)%float then a else b.

Definition np_clip (a a_min a_max : float) : float :=
  npy_min (npy_max a a_min) a_max.

Definition and_then {A B : Type} (r : result A) (k : A -> result B) : result B :=
  match r with
  | OK a => k a
  | Raise e => Raise e
  end.

(** [k * x] for an integer [k] and a float [x]. *)
Definition int_times (k : Z) (x : float) : result float :=
  and_then (float_of_int k) (fun kf => OK (kf * x)%float).

(** *** The price table and the object *)

Record Bar : Type := mkBar {
  Open : float;
  High : float;
  Low : float;
  Close : float;
  SMA5 : float;
  SMA20 : float
}.

Definition DataFrame : Type := list Bar.

Definition iloc (df : DataFrame) (i : nat) : result Bar :=
  match nth_error df i with
  | Some row => OK row
  | None => Raise IndexError
  end.

Definition iloc_slice (df : DataFrame) (start stop : Z) : DataFrame :=
  let len := Z.of_nat (length df) in
  let a := slice_bound len start in
  let b := slice_bound len stop in
  firstn (Z.to_nat (b - a)) (skipn (Z.to_nat a) df).

Record Env : Type := mkEnv {
  df : DataFrame;
  lookback : nat;
  n_steps : nat;
  current_step : nat;
  cash : float;
  stock_owned : Z;
  initial_cash : float;
  trade_penalty_factor : float
}.

Definition set_current_step (v : nat) (s : Env) : Env :=
  mkEnv (df s) (lookback s) (n_steps s) v (cash s) (stock_owned s)
        (initial_cash s) (trade_penalty_factor s).

Definition set_cash (v : float) (s : Env) : Env :=
  mkEnv (df s) (lookback s) (n_steps s) (current_step s) v (stock_owned s)
        (initial_cash s) (trade_penalty_factor s).

Definition set_stock_owned (v : Z) (s : Env) : Env :=
  mkEnv (df s) (lookback s) (n_steps s) (current_step s) (cash s) v
        (initial_cash s) (trade_penalty_factor s).

(** [SimpleTradingEnv.__init__(df, lookback)]; the penalty factor is the
    double nearest to 0.01. *)
Definition init (table : DataFrame) (lb : nat) : Env :=
  {| df := table;
     lookback := lb;
     n_steps := length table;
     current_step := lb;
     cash := 10000;
     stock_owned := 0;
     initial_cash := 10000;
     trade_penalty_factor := 0x1.47ae147ae147bp-7 |}.

(** *** The methods *)

Definition M (A : Type) : Type := Env -> result A * Env.

Definition ret {A : Type} (a : A) : M A := fun s => (OK a, s).

Definition bind {A B : Type} (m : M A) (k : A -> M B) : M B :=
  fun s =>
    match m s with
    | (OK a, s') => k a s'
    | (Raise e, s') => (Raise e, s')
    end.

Definition lift {A : Type} (r : result A) : M A := fun s => (r, s).

Definition self_ {A : Type} (attr : Env -> A) : M A := fun s => (OK (attr s), s).

Definition assign (upd : Env -> Env) : M unit := fun s => (OK tt, upd s).

Declare Scope b64_scope.
Notation "x <- m ;; k" := (bind m (fun x => k))
  (at level 61, m at next level, right associativity) : b64_scope.
Notation "m ;; k" := (bind m (fun _ => k))
  (at level 61, right associativity) : b64_scope.

Local Open Scope b64_scope.

Definition Observation : Type := list float.

(** [_get_obs]: the list [[self.stock_owned]] holds a Python integer, which
    the concatenation with float arrays converts to a double; the whole
    vector is then cast to float32. *)
Definition _get_obs : M Observation :=
  cs <- self_ current_step ;;
  lb <- self_ lookback ;;
  table <- self_ df ;;
  let frame := iloc_slice table (Z.of_nat cs - Z.of_nat lb) (Z.of_nat cs) in
  let ohlc := flat_map (fun r => [Open r; High r; Low r; Close r]) frame in
  let sma5 := map SMA5 frame in
  let sma20 := map SMA20 frame in
  c <- self_ cash ;;
  k <- self_ stock_owned ;;
  kf <- lift (float_of_int k) ;;
  ret (map float32 (ohlc ++ sma5 ++ sma20 ++ [c] ++ [kf])).

Definition reset : M Observation :=
  lb <- self_ lookback ;;
  assign (set_current_step lb) ;;
  c0 <- self_ initial_cash ;;
  assign (set_cash c0) ;;
  assign (set_stock_owned 0) ;;
  _get_obs.

Record Locals : Type := mkLocals {
  price : float;
  prev_total_asset : float;
  action : float;
  shares_traded : Z;
  done : bool;
  next_obs : Observation;
  next_price : float;
  new_total_asset : float;
  reward : float
}.

(** [max_buy = int(self.cash // price)] *)
Definition max_buy (c p : float) : result Z :=
  and_then (py_floordiv c p) py_int.

(** [shares_bought = int(action * max_buy)] *)
Definition shares_bought (act : float) (mb : Z) : result Z :=
  and_then (float_of_int mb) (fun m => py_int (act * m)%float).

(** [shares_sold = int(abs(action) * self.stock_owned)] *)
Definition shares_sold (act : float) (k : Z) : result Z :=
  and_then (float_of_int k) (fun kf => py_int (abs act * kf)%float).

(** Buy logic (the branch [action > 0]). *)
Definition buy (act p : float) : M Z :=
  c <- self_ cash ;;
  mb <- lift (max_buy c p) ;;
  n <- lift (shares_bought act mb) ;;
  if min_trade_amount <=? n then
    cost <- lift (int_times n p) ;;
    c <- self_ cash ;;
    assign (set_cash (c - cost)%float) ;;
    k <- self_ stock_owned ;;
    assign (set_stock_owned (k + n)) ;;
    ret n
  else ret 0.

(** Sell logic (the branch [action < 0]). *)
Definition sell (act p : float) : M Z :=
  k <- self_ stock_owned ;;
  n <- lift (shares_sold act k) ;;
  if min_trade_amount <=? n then
    gain <- lift (int_times n p) ;;
    c <- self_ cash ;;
    assign (set_cash (c + gain)%float) ;;
    k <- self_ stock_owned ;;
    assign (set_stock_owned (k - n)) ;;
    ret n
  else ret 0.

(** The body of [step], its local variables kept. *)
Definition step_locals (action_in : float) : M Locals :=
  cs <- self_ current_step ;;
  table <- self_ df ;;
  row <- lift (iloc table cs) ;;
  let price := Close row in
  c <- self_ cash ;;
  k <- self_ stock_owned ;;
  v <- lift (int_times k price) ;;
  let prev_total_asset := (c + v)%float in
  let action := np_clip action_in (-1) 1 in
  shares_traded <-
    (if (0 <? action)%float then buy action price
     else if (action <? 0)%float then sell action price
     else ret 0) ;;
  cs <- self_ current_step ;;
  assign (set_current_step (cs + 1)%nat) ;;
  cs <- self_ current_step ;;
  n <- self_ n_steps ;;
  let done := Z.of_nat n - 1 <=? Z.of_nat cs in
  next_obs <- _get_obs ;;
  next_price <-
    (if negb done then
       table <- self_ df ;;
       row' <- lift (iloc table cs) ;;
       ret (Close row')
     else ret price) ;;
  c <- self_ cash ;;
  k <- self_ stock_owned ;;
  v' <- lift (int_times k next_price) ;;
  let new_total_asset := (c + v')%float in
  f <- self_ trade_penalty_factor ;;
  t <- lift (float_of_int shares_traded) ;;
  let reward := (new_total_asset - prev_total_asset - f * t)%float in
  ret (mkLocals price prev_total_asset action shares_traded done next_obs
                next_price new_total_asset reward).

(** [step(action)]: what the caller receives. *)
Definition step (action_in : float) : M (Observation * float * bool) :=
  l <- step_locals action_in ;;
  ret (next_obs l, reward l, done l).

Fixpoint steps (acts : list float) (s : Env) : Env :=
  match acts with
  | [] => s
  | a :: acts' => steps acts' (snd (step a s))
  end.

(** *** Reachable states *)

Definition wf (s : Env) : Prop := n_steps s = length (df s).

(** States reached from a reset by any calls of [step], also calls that
    raise and calls made after [done]. *)
Inductive reachable (s0 : Env) : Env -> Prop :=
  | reach_reset : reachable s0 (snd (reset s0))
  | reach_step (s : Env) (a : float) :
      reachable s0 s -> reachable s0 (snd (step a s)).

(** *** The closed form of a call *)

Definition window (s : Env) : DataFrame :=
  iloc_slice (df s) (Z.of_nat (current_step s) - Z.of_nat (lookback s))
             (Z.of_nat (current_step s)).

(** The observation of a state whose holdings convert to the float [kf]. *)
Definition encode (s : Env) (kf : float) : Observation :=
  map float32
    (flat_map (fun r => [Open r; High r; Low r; Close r]) (window s)
     ++ map SMA5 (window s) ++ map SMA20 (window s) ++ [cash s] ++ [kf]).

Definition bought (n : Z) (cost : float) (s : Env) : Env :=
  set_stock_owned (stock_owned s + n) (set_cash (cash s - cost)%float s).

Definition sold (n : Z) (gain : float) (s : Env) : Env :=
  set_stock_owned (stock_owned s - n) (set_cash (cash s + gain)%float s).

(** The outcomes of the trade of a step on the clipped action [act] at the
    price [p]: the number of shares traded and the state it leaves. *)
Inductive trade_case (act p : float) (s : Env) : Z -> Env -> Prop :=
  | trade_hold :
      (0 <? act)%float = false -> (act <? 0)%float = false ->
      trade_case act p s 0 s
  | trade_buy_below (mb n : Z) :
      (0 <? act)%float = true ->
      max_buy (cash s) p = OK mb -> shares_bought act mb = OK n -> n < 1 ->
      trade_case act p s 0 s
  | trade_buy (mb n : Z) (cost : float) :
      (0 <? act)%float = true ->
      max_buy (cash s) p = OK mb -> shares_bought act mb = OK n -> 1 <= n ->
      int_times n p = OK cost ->
      trade_case act p s n (bought n cost s)
  | trade_sell_below (n : Z) :
      (0 <? act)%float = false -> (act <? 0)%float = true ->
      shares_sold act (stock_owned s) = OK n -> n < 1 ->
      trade_case act p s 0 s
  | trade_sell (n : Z) (gain : float) :
      (0 <? act)%float = false -> (act <? 0)%float = true ->
      shares_sold act (stock_owned s) = OK n -> 1 <= n ->
      int_times n p = OK gain ->
      trade_case act p s n (sold n gain s).

Definition trade_pure (act p : float) (s : Env) : result Z * Env :=
  if (0 <? act)%float then
    match max_buy (cash s) p with
    | Raise e => (Raise e, s)
    | OK mb =>
        match shares_bought act mb with
        | Raise e => (Raise e, s)
        | OK n =>
            if 1 <=? n then
              match int_times n p with
              | Raise e => (Raise e, s)
              | OK cost => (OK n, bought n cost s)
              end
            else (OK 0, s)
        end
    end
  else if (act <? 0)%float then
    match shares_sold act (stock_owned s) with
    | Raise e => (Raise e, s)
    | OK n =>
        if 1 <=? n then
          match int_times n p with
          | Raise e => (Raise e, s)
          | OK gain => (OK n, sold n gain s)
          end
        else (OK 0, s)
    end
  else (OK 0, s).

Definition is_done (s : Env) : bool :=
  Z.of_nat (n_steps s) - 1 <=? Z.of_nat (current_step s).

(** The price that values the new portfolio in the state [s2] the cursor
    has advanced to. *)
Definition next_price_of (row : Bar) (s2 : Env) : result float :=
  if is_done s2 then OK (Close row)
  else and_then (iloc (df s2) (current_step s2)) (fun r => OK (Close r)).

Definition locals_after (row : Bar) (act prev : float) (t : Z) (s2 : Env)
    (kf np tf : float) : Locals :=
  let new := (cash s2 + kf * np)%float in
  mkLocals (Close row) prev act t (is_done s2) (encode s2 kf) np new
           (new - prev - trade_penalty_factor s2 * tf)%float.

Definition finish (row : Bar) (act prev : float) (t : Z) (s1 : Env)
  : result Locals * Env :=
  let s2 := set_current_step (current_step s1 + 1)%nat s1 in
  match float_of_int (stock_owned s2) with
  | Raise e => (Raise e, s2)
  | OK kf =>
      match next_price_of row s2 with
      | Raise e => (Raise e, s2)
      | OK np =>
          match float_of_int t with
          | Raise e => (Raise e, s2)
          | OK tf => (OK (locals_after row act prev t s2 kf np tf), s2)
          end
      end
  end.

Definition step_pure (a : float) (s : Env) : result Locals * Env :=
  match nth_error (df s) (current_step s) with
  | None => (Raise IndexError, s)
  | Some row =>
      match float_of_int (stock_owned s) with
      | Raise e => (Raise e, s)
      | OK kf =>
          let act := np_clip a (-1) 1 in
          match trade_pure act (Close row) s with
          | (Raise e, s1) => (Raise e, s1)
          | (OK t, s1) => finish row act (cash s + kf * Close row)%float t s1
          end
      end
  end.

(** *** The chronological split *)

(** [train_size = int(len(df) * train_ratio)] *)
Definition train_size (len : nat) (train_ratio : float) : result Z :=
  and_then (int_times (Z.of_nat len) train_ratio) py_int.

(** [train_test_split(df, train_ratio)]: [df[:train_size]] and
    [df[train_size:]]. *)
Definition train_test_split (df : DataFrame) (train_ratio : float)
  : result (DataFrame * DataFrame) :=
  and_then (train_size (length df) train_ratio)
    (fun k => OK (iloc_slice df 0 k, iloc_slice df k (Z.of_nat (length df)))).

(** *** Example environments *)

Definition bar_at (p : float) : Bar := mkBar p p p p p p.

(** Eight bars with close 100 and lookback 2. *)
Definition flat8 : Env := init (repeat (bar_at 100) 8) 2.

(** Four bars with closes 10, 20, 30, 40 and lookback 1. *)
Definition rising4 : Env :=
  init [bar_at 10; bar_at 20; bar_at 30; bar_at 40] 1.

(** The four-bar environment after one hold, after the hold that returns
    [done], and after one more. *)
Definition rising4_active : Env := steps [0%float] (snd (reset rising4)).

Definition rising4_end : Env := steps [0%float; 0%float] (snd (reset rising4)).

Definition rising4_past : Env :=
  steps [0%float; 0%float; 0%float] (snd (reset rising4)).

(** Four bars whose close is the double nearest to 4.1e-15, lookback 1. *)
Definition tiny4 : Env := init (repeat (bar_at 0x1.276fa6946b83dp-48) 4) 1.

(** Four bars with close 0, and four with the subnormal close nearest to
    1e-320, lookback 1. *)
Definition zero4 : Env := init (repeat (bar_at 0) 4) 1.

Definition subnormal4 : Env := init (repeat (bar_at 0x0.00000000007e8p-1022) 4) 1.

(** Eight bars with close 5000 * 2^-53, lookback 1. *)
Definition half8 : Env := init (repeat (bar_at 0x1.388p-41) 8) 1.

(** The reward, the flag and the portfolio a call leaves. *)
Definition outcome (r : result (Observation * float * bool) * Env)
  : result (float * bool * float * Z) :=
  match r with
  | (OK (_, rew, d), s') => OK (rew, d, cash s', stock_owned s')
  | (Raise e, _) => Raise e
  end.

End B64.

(** * Proofs *)

(** ** Lemmas on the clipped action *)

Lemma Qlt_bool_iff (p q : Q) : Qlt_bool p q = true <-> (p < q)%Q.
Proof.
  unfold Qlt_bool. rewrite negb_true_iff.
  split; intro H.
  - apply Qnot_le_lt. intro Hle. apply Qle_bool_iff in Hle. congruence.
  - destruct (Qle_bool q p) eqn:E; [|reflexivity].
    apply Qle_bool_iff in E. exfalso. apply (Qlt_not_le _ _ H E).
Qed.

Lemma Qlt_bool_false_iff (p q : Q) : Qlt_bool p q = false <-> (q <= p)%Q.
Proof.
  unfold Qlt_bool. rewrite negb_false_iff. apply Qle_bool_iff.
Qed.

Lemma np_clip_Fin (q : Q) :
  np_clip (Fin q) (Fin (-1)) (Fin 1) = Fin (clamp q (-1) 1).
Proof.
  unfold np_clip, np_maximum, np_minimum, clamp; simpl.
  destruct (Qlt_bool q (-1)) eqn:E1; simpl.
  - reflexivity.
  - destruct (Qlt_bool 1 q); reflexivity.
Qed.

Lemma clamp_bounds (q : Q) : (-1 <= clamp q (-1) 1 <= 1)%Q.
Proof.
  unfold clamp.
  destruct (Qlt_bool q (-1)) eqn:E1.
  - split; [apply Qle_refl | discriminate].
  - apply Qlt_bool_false_iff in E1.
    destruct (Qlt_bool 1 q) eqn:E2.
    + split; [discriminate | apply Qle_refl].
    + apply Qlt_bool_false_iff in E2. split; assumption.
Qed.

Lemma np_clip_cases (a : pyfloat) :
  (a = NaN /\ np_clip a (Fin (-1)) (Fin 1) = NaN) \/
  (exists q, np_clip a (Fin (-1)) (Fin 1) = Fin q /\ (-1 <= q <= 1)%Q).
Proof.
  destruct a as [q| | |].
  - right. exists (clamp q (-1) 1). split; [apply np_clip_Fin | apply clamp_bounds].
  - right. exists 1%Q. split; [reflexivity | split; discriminate].
  - right. exists (-1)%Q. split; [reflexivity | split; discriminate].
  - left. split; reflexivity.
Qed.

(** ** The methods compute their closed forms *)

Lemma get_obs_run (s : Env) : _get_obs s = (OK (encode s), s).
Proof. reflexivity. Qed.

Lemma reset_run (s : Env) :
  reset s =
  (OK (encode (set_stock_owned 0 (set_cash (initial_cash s)
                 (set_current_step (lookback s) s)))),
   set_stock_owned 0 (set_cash (initial_cash s) (set_current_step (lookback s) s))).
Proof. reflexivity. Qed.

Lemma Qtrunc_inject_Z (z : Z) : Qtrunc (inject_Z z) = z.
Proof. unfold Qtrunc; simpl. apply Z.quot_1_r. Qed.

Lemma trade_run (act : pyfloat) (p : Q) (s : Env) :
  act <> PInf -> act <> NInf ->
  (if pf_gtb act (Fin 0) then buy act p
   else if pf_ltb act (Fin 0) then sell act p
   else ret 0) s = trade_pure act p s.
Proof.
  intros HP HN.
  destruct act as [q| | |]; try congruence; [|reflexivity].
  cbv [pf_gtb pf_ltb trade_pure].
  destruct (Qlt_bool 0 q).
  - cbv [buy bind self_ lift py_floordiv].
    destruct (Qeq_bool p 0); [reflexivity|].
    cbv [py_int pf_mul]. rewrite Qtrunc_inject_Z. fold (buy_size q (cash s) p).
    destruct (min_trade_amount <=? buy_size q (cash s) p); reflexivity.
  - destruct (Qlt_bool q 0); [|reflexivity].
    cbv [sell bind self_ lift py_int pf_mul pf_abs].
    fold (sell_size q (stock_owned s)).
    destruct (min_trade_amount <=? sell_size q (stock_owned s)); reflexivity.
Qed.

Lemma np_clip_not_inf (a : pyfloat) :
  np_clip a (Fin (-1)) (Fin 1) <> PInf /\ np_clip a (Fin (-1)) (Fin 1) <> NInf.
Proof.
  destruct (np_clip_cases a) as [[_ H]|[q [H _]]]; rewrite H; split; discriminate.
Qed.

Lemma step_locals_run (a : pyfloat) (s : Env) :
  step_locals a s = step_pure a s.
Proof.
  unfold step_locals, step_pure.
  unfold bind at 1. unfold self_ at 1.
  unfold bind at 1. unfold self_ at 1.
  unfold bind at 1. unfold lift at 1, iloc.
  destruct (nth_error (df s) (current_step s)) as [row|]; [|reflexivity].
  unfold bind at 1. unfold self_ at 1.
  unfold bind at 1. unfold self_ at 1.
  unfold bind at 1.
  destruct (np_clip_not_inf a) as [HP HN].
  rewrite (trade_run _ (Close row) s HP HN).
  destruct (trade_pure (np_clip a (Fin (-1)) (Fin 1)) (Close row) s)
    as [[t|e] s1];
    [|reflexivity].
  unfold finish, locals_after, bind, self_, assign, lift, ret, _get_obs, is_done; simpl.
  destruct (Z.of_nat (n_steps s1) - 1 <=? Z.of_nat (current_step s1 + 1)); simpl;
    [reflexivity|].
  unfold iloc.
  destruct (nth_error (df s1) (current_step s1 + 1)); reflexivity.
Qed.

Lemma step_run (a : pyfloat) (s : Env) :
  step a s =
  match step_pure a s with
  | (OK l, s') => (OK (next_obs l, reward l, done l), s')
  | (Raise e, s') => (Raise e, s')
  end.
Proof.
  unfold step, bind. rewrite step_locals_run.
  destruct (step_pure a s) as [[l|e] s']; reflexivity.
Qed.

(** ** What a call leaves alone *)

Lemma same_config_refl (s : Env) : same_config s s.
Proof. repeat split. Qed.

Lemma same_config_trans (s1 s2 s3 : Env) :
  same_config s1 s2 -> same_config s2 s3 -> same_config s1 s3.
Proof.
  unfold same_config. intros (A1 & A2 & A3 & A4 & A5) (B1 & B2 & B3 & B4 & B5).
  repeat split; congruence.
Qed.

Lemma trade_pure_cases (act : pyfloat) (p : Q) (s : Env) (t : Z) (s1 : Env) :
  trade_pure act p s = (OK t, s1) -> trade_case act p s t s1.
Proof.
  unfold trade_pure.
  destruct act as [q| | |];
    try (intro H; inversion H; subst; apply trade_none; intros q' Hq'; discriminate).
  destruct (Qlt_bool 0 q) eqn:Epos.
  - apply Qlt_bool_iff in Epos.
    destruct (Qeq_bool p 0); [discriminate|].
    destruct (min_trade_amount <=? buy_size q (cash s) p) eqn:Em; intro H; inversion H; subst.
    + apply (trade_buy (Fin q) p s q); [reflexivity | assumption | lia].
    + apply trade_none. intros q' Hq'. inversion Hq'; subst q'.
      right; left. split; [assumption | lia].
  - apply Qlt_bool_false_iff in Epos.
    destruct (Qlt_bool q 0) eqn:Eneg.
    + apply Qlt_bool_iff in Eneg.
      destruct (min_trade_amount <=? sell_size q (stock_owned s)) eqn:Em; intro H; inversion H; subst.
      * apply (trade_sell (Fin q) p s q); [reflexivity | assumption | lia].
      * apply trade_none. intros q' Hq'. inversion Hq'; subst q'.
        right; right. split; [assumption | lia].
    + apply Qlt_bool_false_iff in Eneg.
      intro H; inversion H; subst. apply trade_none.
      intros q' Hq'. inversion Hq'; subst q'. left. apply Qle_antisym; assumption.
Qed.


Lemma trade_pure_frame (act : pyfloat) (p : Q) (s : Env)
    (r : result Z) (s1 : Env) :
  trade_pure act p s = (r, s1) ->
  same_config s s1 /\ current_step s1 = current_step s.
Proof.
  unfold trade_pure.
  destruct act as [q| | |];
    try (intro H; inversion H; subst; split; [apply same_config_refl | reflexivity]).
  destruct (Qlt_bool 0 q).
  - destruct (Qeq_bool p 0);
      [intro H; inversion H; subst; split; [apply same_config_refl | reflexivity]|].
    destruct (min_trade_amount <=? buy_size q (cash s) p); intro H; inversion H; subst;
      split; try reflexivity; repeat split.
  - destruct (Qlt_bool q 0).
    + destruct (min_trade_amount <=? sell_size q (stock_owned s)); intro H; inversion H; subst;
        split; try reflexivity; repeat split.
    + intro H; inversion H; subst; split; [apply same_config_refl | reflexivity].
Qed.

(** ** A step that returns *)

Lemma step_pure_inv (a : pyfloat) (s : Env) (l : Locals) (s' : Env) :
  step_pure a s = (OK l, s') ->
  exists row t s1 np,
    nth_error (df s) (current_step s) = Some row /\
    trade_case (np_clip a (Fin (-1)) (Fin 1)) (Close row) s t s1 /\
    s' = set_current_step (current_step s + 1)%nat s1 /\
    next_price_rule s row s' np /\
    l = locals_after row (np_clip a (Fin (-1)) (Fin 1)) s t s' np.
Proof.
  unfold step_pure.
  destruct (nth_error (df s) (current_step s)) as [row|] eqn:Hrow; [|discriminate].
  destruct (trade_pure (np_clip a (Fin (-1)) (Fin 1)) (Close row) s)
    as [[t|e] s1] eqn:Ht; [|discriminate].
  destruct (trade_pure_frame _ _ _ _ _ Ht) as [(Hdf & _) Hcs].
  pose proof (trade_pure_cases _ _ _ _ _ Ht) as Hcase.
  unfold finish. rewrite Hcs.
  destruct (is_done (set_current_step (current_step s + 1)%nat s1)) eqn:Hd.
  - intro H; inversion H; subst.
    exists row, t, s1, (Close row). repeat split; try assumption.
    left. split; [assumption | reflexivity].
  - simpl.
    destruct (nth_error (df s1) (current_step s + 1)) as [row'|] eqn:Hrow';
      [|discriminate].
    intro H; inversion H; subst.
    exists row, t, s1, (Close row'). repeat split; try assumption.
    right. split; [assumption|]. exists row'. rewrite <- Hdf. split; [assumption | reflexivity].
Qed.


Lemma step_ok_inv (a : pyfloat) (s : Env) (o : Observation) (r : Q) (d : bool)
    (s' : Env) :
  step a s = (OK (o, r, d), s') ->
  exists l, step_pure a s = (OK l, s') /\
            o = next_obs l /\ r = reward l /\ d = done l.
Proof.
  rewrite step_run.
  destruct (step_pure a s) as [[l|e] s1]; [|discriminate].
  intro H; inversion H; subst. exists l. repeat split.
Qed.

Lemma trade_case_frame (act : pyfloat) (p : Q) (s : Env) (t : Z) (s1 : Env) :
  trade_case act p s t s1 ->
  same_config s s1 /\ current_step s1 = current_step s.
Proof.
  intros [H|q H1 H2 H3|q H1 H2 H3]; split; try reflexivity; repeat split.
Qed.


Lemma prices_positive_nth (table : DataFrame) (i : nat) (row : Bar) :
  prices_positive table -> nth_error table i = Some row -> (0 < Close row)%Q.
Proof.
  intros H Hn. unfold prices_positive in H. rewrite Forall_forall in H.
  apply H. eapply nth_error_In; eassumption.
Qed.

(** ** The cursor inside an episode *)



(** ** The reward of a step *)







(** ** The sizes of the trades in exact arithmetic *)

Lemma Qtrunc_nonneg (x : Q) : (0 <= x)%Q -> Qtrunc x = Qfloor x.
Proof.
  destruct x as [n d]. unfold Qle; simpl. intro H.
  unfold Qtrunc; simpl. apply Z.quot_div_nonneg; lia.
Qed.

Lemma Qfloor_nonneg (x : Q) : (0 <= x)%Q -> 0 <= Qfloor x.
Proof.
  intro H. change 0 with (Qfloor 0). apply Qfloor_resp_le. exact H.
Qed.

Lemma Qmult_le_1_l (q x : Q) : (0 <= x)%Q -> (q <= 1)%Q -> (q * x <= x)%Q.
Proof.
  intros Hx Hq. rewrite <- (Qmult_1_l x) at 2.
  apply Qmult_le_compat_r; assumption.
Qed.

Lemma buy_size_bounds (q c p : Q) :
  (0 < p)%Q -> (0 <= c)%Q -> (0 < q)%Q -> (q <= 1)%Q ->
  0 <= buy_size q c p /\ (inject_Z (buy_size q c p) * p <= c)%Q.
Proof.
  intros Hp Hc Hq0 Hq1. unfold buy_size.
  assert (Hcp : (0 <= c / p)%Q).
  { apply Qle_shift_div_l; [assumption|]. rewrite Qmult_0_l. assumption. }
  pose proof (Qfloor_nonneg _ Hcp) as HF.
  pose proof (Qfloor_le (c / p)) as HFle.
  assert (HF' : (0 <= inject_Z (Qfloor (c / p)))%Q).
  { change 0%Q with (inject_Z 0). rewrite <- Zle_Qle. exact HF. }
  assert (Hx : (0 <= q * inject_Z (Qfloor (c / p)))%Q).
  { apply Qmult_le_0_compat; [apply Qlt_le_weak; assumption | assumption]. }
  rewrite (Qtrunc_nonneg _ Hx). split.
  - apply Qfloor_nonneg. exact Hx.
  - apply Qle_trans with (inject_Z (Qfloor (c / p)) * p)%Q.
    + apply Qmult_le_compat_r; [|apply Qlt_le_weak; assumption].
      apply Qle_trans with (q * inject_Z (Qfloor (c / p)))%Q;
        [apply Qfloor_le | apply Qmult_le_1_l; assumption].
    + apply Qle_trans with (c / p * p)%Q.
      * apply Qmult_le_compat_r; [assumption | apply Qlt_le_weak; assumption].
      * rewrite Qmult_comm, Qmult_div_r; [apply Qle_refl|].
        intro E. rewrite E in Hp. apply (Qlt_irrefl 0). exact Hp.
Qed.

Lemma sell_size_bounds (q : Q) (k : Z) :
  0 <= k -> (-1 <= q)%Q -> (q <= 1)%Q ->
  0 <= sell_size q k <= k.
Proof.
  intros Hk Hlo Hhi. unfold sell_size.
  assert (Hk' : (0 <= inject_Z k)%Q).
  { change 0%Q with (inject_Z 0). rewrite <- Zle_Qle. exact Hk. }
  assert (Habs : (Qabs q <= 1)%Q).
  { apply Qabs_Qle_condition. split; assumption. }
  assert (Hx : (0 <= Qabs q * inject_Z k)%Q).
  { apply Qmult_le_0_compat; [apply Qabs_nonneg | assumption]. }
  rewrite (Qtrunc_nonneg _ Hx). split.
  - apply Qfloor_nonneg. exact Hx.
  - rewrite Zle_Qle.
    apply Qle_trans with (Qabs q * inject_Z k)%Q;
      [apply Qfloor_le | apply Qmult_le_1_l; assumption].
Qed.

Lemma trade_case_nonneg (a : pyfloat) (p : Q) (s : Env) (t : Z) (s1 : Env) :
  (0 < p)%Q -> (0 <= cash s)%Q -> 0 <= stock_owned s ->
  trade_case (np_clip a (Fin (-1)) (Fin 1)) p s t s1 ->
  (0 <= cash s1)%Q /\ 0 <= stock_owned s1 /\ 0 <= t.
Proof.
  intros Hp Hc Hk Hcase.
  destruct (np_clip_cases a) as [[_ Hnan]|[q0 [Hfin [Hlo Hhi]]]].
  - rewrite Hnan in Hcase.
    destruct Hcase as [H|q H1 H2 H3|q H1 H2 H3]; try discriminate.
    repeat split; [assumption | assumption | lia].
  - rewrite Hfin in Hcase.
    destruct Hcase as [H|q H1 H2 H3|q H1 H2 H3].
    + repeat split; [assumption | assumption | lia].
    + inversion H1; subst q0.
      destruct (buy_size_bounds q (cash s) p Hp Hc H2 Hhi) as [Hn Hle].
      simpl. repeat split; [|lia|assumption].
      unfold Qminus. rewrite <- (Qplus_opp_r (inject_Z (buy_size q (cash s) p) * p)).
      apply Qplus_le_l. exact Hle.
    + inversion H1; subst q0.
      destruct (sell_size_bounds q (stock_owned s) Hk Hlo Hhi) as [Hn Hle].
      simpl. repeat split; [|lia|assumption].
      rewrite <- (Qplus_0_r 0). apply Qplus_le_compat; [assumption|].
      apply Qmult_le_0_compat; [|apply Qlt_le_weak; assumption].
      change 0%Q with (inject_Z 0). rewrite <- Zle_Qle. exact Hn.
Qed.

Lemma trade_pure_raise (act : pyfloat) (p : Q) (s : Env) (e : exn) (s1 : Env) :
  trade_pure act p s = (Raise e, s1) -> s1 = s /\ e = ZeroDivisionError.
Proof.
  unfold trade_pure.
  destruct act as [q| | |]; try discriminate.
  destruct (Qlt_bool 0 q).
  - destruct (Qeq_bool p 0); [intro H; inversion H; split; reflexivity|].
    destruct (min_trade_amount <=? buy_size q (cash s) p); discriminate.
  - destruct (Qlt_bool q 0); [|discriminate].
    destruct (min_trade_amount <=? sell_size q (stock_owned s)); discriminate.
Qed.

(** The state a call of [step] leaves, whether it returns or raises. *)
Lemma step_state_cases (a : pyfloat) (s : Env) :
  snd (step a s) = s \/
  exists row t s1,
    nth_error (df s) (current_step s) = Some row /\
    trade_case (np_clip a (Fin (-1)) (Fin 1)) (Close row) s t s1 /\
    snd (step a s) = set_current_step (current_step s + 1)%nat s1.
Proof.
  rewrite step_run. unfold step_pure.
  destruct (nth_error (df s) (current_step s)) as [row|] eqn:Hrow; [|left; reflexivity].
  destruct (trade_pure (np_clip a (Fin (-1)) (Fin 1)) (Close row) s)
    as [[t|e] s1] eqn:Ht.
  - right. exists row, t, s1.
    split; [reflexivity|]. split; [apply trade_pure_cases; exact Ht|].
    destruct (trade_pure_frame _ _ _ _ _ Ht) as [_ Hcs].
    unfold finish. rewrite Hcs.
    destruct (is_done (set_current_step (current_step s + 1)%nat s1)); [reflexivity|].
    destruct (nth_error (df (set_current_step (current_step s + 1)%nat s1))
                (current_step (set_current_step (current_step s + 1)%nat s1)));
      reflexivity.
  - left. destruct (trade_pure_raise _ _ _ _ _ Ht) as [-> _]. reflexivity.
Qed.

(** In exact arithmetic no state reached from a reset has negative cash or
    negative holdings, when every close is positive and the initial cash is
    not negative.  In binary64 both can happen, by rounding alone, as the
    last part of the file shows. *)
Lemma reachable_inv (s0 s : Env) :
  prices_positive (df s0) ->
  (0 <= initial_cash s0)%Q ->
  reachable s0 s ->
  same_config s0 s /\ (lookback s0 <= current_step s)%nat /\
  (0 <= cash s)%Q /\ 0 <= stock_owned s.
Proof.
  intros Hpos Hc0 Hreach. induction Hreach as [|s a Hreach IH].
  - rewrite reset_run; simpl. repeat split; [lia | assumption | lia].
  - destruct IH as (Hcfg & HL & Hc & Hk).
    destruct (step_state_cases a s) as [->|(row & t & s1 & Hrow & Hcase & ->)].
    + repeat split; try apply Hcfg; assumption.
    + assert (Hp : (0 < Close row)%Q).
      { apply (prices_positive_nth (df s0) (current_step s)); [assumption|].
        rewrite <- (proj1 Hcfg). exact Hrow. }
      destruct (trade_case_nonneg _ _ _ _ _ Hp Hc Hk Hcase) as (Hc1 & Hk1 & _).
      destruct (trade_case_frame _ _ _ _ _ Hcase) as [Hcfg1 Hcs1].
      destruct (same_config_trans _ _ _ Hcfg Hcfg1) as (A1 & A2 & A3 & A4 & A5).
      simpl. repeat split; try assumption. lia.
Qed.

(** ** Termination of an episode *)






(** ** The price that values the new portfolio *)



(** ** The layout of an observation *)

Lemma window_length (s : Env) :
  (lookback s <= current_step s <= length (df s))%nat ->
  length (window s) = lookback s.
Proof.
  intro H. unfold window, iloc_slice, slice_bound.
  destruct (Z.of_nat (current_step s) - Z.of_nat (lookback s) <? 0) eqn:E1;
    [apply Z.ltb_lt in E1; lia|].
  destruct (Z.of_nat (current_step s) <? 0) eqn:E2; [apply Z.ltb_lt in E2; lia|].
  rewrite length_firstn, length_skipn. lia.
Qed.

Lemma window_nth (s : Env) (i : nat) :
  (lookback s <= current_step s <= length (df s))%nat ->
  (i < lookback s)%nat ->
  nth_error (window s) i = nth_error (df s) (current_step s - lookback s + i).
Proof.
  intros H Hi. unfold window, iloc_slice, slice_bound.
  destruct (Z.of_nat (current_step s) - Z.of_nat (lookback s) <? 0) eqn:E1;
    [apply Z.ltb_lt in E1; lia|].
  destruct (Z.of_nat (current_step s) <? 0) eqn:E2; [apply Z.ltb_lt in E2; lia|].
  rewrite nth_error_firstn, nth_error_skipn.
  replace (Z.to_nat (Z.min (Z.of_nat (current_step s)) (Z.of_nat (length (df s))) -
                     Z.min (Z.of_nat (current_step s) - Z.of_nat (lookback s))
                           (Z.of_nat (length (df s)))))
    with (lookback s) by lia.
  replace (Z.to_nat (Z.min (Z.of_nat (current_step s) - Z.of_nat (lookback s))
                           (Z.of_nat (length (df s)))))
    with (current_step s - lookback s)%nat by lia.
  destruct (Nat.ltb_spec i (lookback s)); [reflexivity | lia].
Qed.

Lemma ohlc_of_length (w : DataFrame) : length (ohlc_of w) = (4 * length w)%nat.
Proof.
  unfold ohlc_of. rewrite flat_map_constant_length with (c := 4%nat); [lia|].
  intros x _. reflexivity.
Qed.

Lemma encode_laid_out (s : Env) :
  (lookback s <= current_step s <= length (df s))%nat ->
  laid_out s (encode s).
Proof.
  intro H. exists (window s).
  pose proof (window_length s H) as Hlen.
  assert (Hsize : length (encode s) = (6 * lookback s + 2)%nat).
  { unfold encode. fold (ohlc_of (window s)).
    rewrite !length_app, ohlc_of_length, !length_map, Hlen. simpl. lia. }
  split; [exact Hlen|]. split; [|split; [reflexivity|split; [|split]]].
  - intros i Hi.
    destruct (nth_error (window s) i) as [bar|] eqn:E.
    + exists bar. split; [reflexivity|]. rewrite <- (window_nth s i H Hi). exact E.
    + apply nth_error_None in E. lia.
  - rewrite ohlc_of_length, Hlen. reflexivity.
  - exact Hsize.
  - rewrite Hsize. reflexivity.
Qed.

Lemma reachable_cursor (s0 s : Env) :
  reachable s0 s ->
  same_config s0 s /\ (lookback s0 <= current_step s)%nat.
Proof.
  intro Hreach. induction Hreach as [|s a Hreach IH].
  - rewrite reset_run; simpl. repeat split; lia.
  - destruct IH as (Hcfg & HL).
    destruct (step_state_cases a s) as [->|(row & t & s1 & Hrow & Hcase & ->)].
    + split; assumption.
    + destruct (trade_case_frame _ _ _ _ _ Hcase) as [Hcfg1 Hcs1].
      destruct (same_config_trans _ _ _ Hcfg Hcfg1) as (A1 & A2 & A3 & A4 & A5).
      simpl. repeat split; try assumption. lia.
Qed.

(** C5: on a table of at least [lookback] bars, the observation [reset]
    returns and every observation a [step] returns, from any state reached
    from that reset, has length 6 * lookback + 2 and is laid out as the
    OHLC values of the lookback bars before the cursor in the order of the
    table (4 * lookback values), then their SMA5 values, then their SMA20
    values, then the cash, then the holdings; the length is the
    [state_size] of [__init__]. *)
Theorem C5_observation_layout (s0 : Env) :
  (lookback s0 <= length (df s0))%nat ->
  (exists o, reset s0 = (OK o, snd (reset s0)) /\ laid_out (snd (reset s0)) o) /\
  (forall (s : Env) (a : pyfloat) (o : Observation) (r : Q) (d : bool) (s' : Env),
     reachable s0 s ->
     step a s = (OK (o, r, d), s') ->
     laid_out s' o).
Proof.
  intro HL. split.
  - exists (encode (snd (reset s0))). split; [apply reset_run|].
    apply encode_laid_out. rewrite reset_run; simpl. lia.
  - intros s a o r d s' Hreach Hstep.
    destruct (reachable_cursor s0 s Hreach) as ((Hdf & Hlb & _) & Hcur).
    destruct (step_ok_inv _ _ _ _ _ _ Hstep) as (l & Hrun & Ho & _ & _).
    destruct (step_pure_inv _ _ _ _ Hrun) as (row & t & s1 & np & Hrow & Hc & Hs & _ & Hl).
    destruct (trade_case_frame _ _ _ _ _ Hc) as [(Hdf1 & Hlb1 & _) Hcs1].
    assert (Hlt : (current_step s < length (df s))%nat).
    { apply nth_error_Some. rewrite Hrow. discriminate. }
    rewrite Ho, Hl. unfold locals_after; simpl.
    apply encode_laid_out. subst s'; simpl. rewrite Hdf1, Hlb1, Hlb. lia.
Qed.

Lemma C5_observation_layout_witness :
  (lookback flat8 <= length (df flat8))%nat /\
  (exists o, reset flat8 = (OK o, snd (reset flat8)) /\ laid_out (snd (reset flat8)) o) /\
  (forall (s : Env) (a : pyfloat) (o : Observation) (r : Q) (d : bool) (s' : Env),
     reachable flat8 s ->
     step a s = (OK (o, r, d), s') ->
     laid_out s' o).
Proof.
  split; [simpl; lia|].
  apply (C5_observation_layout flat8). simpl; lia.
Defined.

(** ** Reset *)

Lemma reset_config (s s' : Env) : same_config s s' -> reset s' = reset s.
Proof.
  intros (A1 & A2 & A3 & A4 & A5). rewrite !reset_run.
  unfold encode, window, set_stock_owned, set_cash, set_current_step; simpl.
  rewrite A1, A2, A3, A4, A5. reflexivity.
Qed.

Lemma step_config (a : pyfloat) (s : Env) : same_config s (snd (step a s)).
Proof.
  destruct (step_state_cases a s) as [->|(row & t & s1 & _ & Hcase & ->)].
  - apply same_config_refl.
  - destruct (trade_case_frame _ _ _ _ _ Hcase) as [(A1 & A2 & A3 & A4 & A5) _].
    repeat split; assumption.
Qed.

Lemma steps_config (acts : list pyfloat) (s : Env) : same_config s (steps acts s).
Proof.
  revert s. induction acts as [|a acts IH]; intro s; simpl.
  - apply same_config_refl.
  - eapply same_config_trans; [apply step_config | apply IH].
Qed.

(** C6: [reset] returns, sets the cash to the initial cash, the holdings
    to 0 and the cursor to [lookback], and returns the observation of that
    state, whose window is the first [lookback] bars; after any sequence of
    [step] calls, from the reset state or from any other state of the
    environment, it gives the same state and the same observation, and so
    does a second [reset] right after the first. *)
Theorem C6_reset (s0 : Env) (acts : list pyfloat) :
  reset s0 = (OK (encode (snd (reset s0))), snd (reset s0)) /\
  cash (snd (reset s0)) = initial_cash s0 /\
  stock_owned (snd (reset s0)) = 0 /\
  current_step (snd (reset s0)) = lookback s0 /\
  window (snd (reset s0)) = iloc_slice (df s0) 0 (Z.of_nat (lookback s0)) /\
  reset (steps acts (snd (reset s0))) = reset s0 /\
  reset (steps acts s0) = reset s0 /\
  reset (snd (reset s0)) = reset s0.
Proof.
  assert (Hcfg : same_config s0 (snd (reset s0))).
  { rewrite reset_run. repeat split. }
  split; [apply reset_run|].
  split; [reflexivity|]. split; [reflexivity|]. split; [reflexivity|].
  split.
  { rewrite reset_run. unfold window; simpl. rewrite Z.sub_diag. reflexivity. }
  split.
  { apply reset_config. eapply same_config_trans; [exact Hcfg | apply steps_config]. }
  split.
  { apply reset_config. apply steps_config. }
  apply reset_config. exact Hcfg.
Qed.

(** ** Stepping after the episode has ended *)

Lemma step_past_end (a : pyfloat) (s : Env) :
  (length (df s) <= current_step s)%nat ->
  step a s = (Raise IndexError, s).
Proof.
  intro H. rewrite step_run. unfold step_pure.
  apply nth_error_None in H. rewrite H. reflexivity.
Qed.




Lemma rising4_end_terminated : in_episode rising4 true rising4_end.
Proof.
  eapply (ep_step rising4 (snd (step (Fin 0) (snd (reset rising4)))) rising4_end
            (Fin 0)).
  - eapply (ep_step rising4 (snd (reset rising4))
              (snd (step (Fin 0) (snd (reset rising4)))) (Fin 0)).
    + apply ep_reset.
    + vm_compute. reflexivity.
  - vm_compute. reflexivity.
Qed.

(** C8 fails as stated: on the four-bar table, after the step that
    returned [done = true], a [step] with action 1 returns normally
    (reward -2.5, [done] again) and buys 250 shares with all the cash. *)
Lemma C8_counterexample :
  in_episode rising4 true rising4_end /\
  cash rising4_end = 10000%Q /\
  stock_owned rising4_end = 0 /\
  outcome (step (Fin 1) rising4_end) = OK ((- (5 # 2))%Q, true, 0%Q, 250).
Proof.
  split; [exact rising4_end_terminated|].
  split; [reflexivity|]. split; [reflexivity|].
  vm_compute. reflexivity.
Qed.

(** ** The action *)

(** C9 fails as stated: from the reset state of the eight-bar table a
    [step] with NaN, +inf or -inf as its action returns normally: NaN and
    -inf leave the portfolio alone, +inf buys 100 shares as action 1 does. *)
Lemma C9_counterexample :
  outcome (step NaN (snd (reset flat8))) = OK (0%Q, false, 10000%Q, 0) /\
  outcome (step PInf (snd (reset flat8))) = OK ((-1)%Q, false, 0%Q, 100) /\
  outcome (step NInf (snd (reset flat8))) = OK (0%Q, false, 10000%Q, 0).
Proof.
  split; [|split]; vm_compute; reflexivity.
Qed.

(** ** The examples, run *)

(** Full buy at 100: 100 shares, no cash left, the reward is the penalty. *)
Example flat8_buy_all :
  outcome (step (Fin 1) (snd (reset flat8))) = OK ((-1)%Q, false, 0%Q, 100).
Proof. vm_compute. reflexivity. Qed.

(** With the code's threshold 1, an action worth 4 shares is traded. *)
Example flat8_buy_four :
  outcome (step (Fin (4 # 100)) (snd (reset flat8))) = OK ((- (1 # 25))%Q, false, 9600%Q, 4).
Proof. vm_compute. reflexivity. Qed.

(** Buying at 20 before the close moves to 30 earns the move less the
    penalty on 500 shares. *)
Example rising4_first_step :
  outcome (step (Fin 1) (snd (reset rising4))) = OK (4995%Q, false, 0%Q, 500).
Proof. vm_compute. reflexivity. Qed.

(** The last step of the episode holds 500 shares while the close moves from
    30 to 40, and its reward is 0: the new portfolio is valued at 30. *)
Example rising4_last_step :
  outcome (step (Fin 0) (snd (step (Fin 1) (snd (reset rising4))))) =
  OK (0%Q, true, 0%Q, 500).
Proof. vm_compute. reflexivity. Qed.

(** A division by a zero close is raised before anything is assigned. *)
Example zero_close_raises :
  fst (step (Fin 1) (init [mkBar 1 1 1 1 1 1; mkBar 0 0 0 0 0 0;
                           mkBar 1 1 1 1 1 1] 1)) = Raise ZeroDivisionError.
Proof. vm_compute. reflexivity. Qed.

(** [collect_rewards] on eight bars (lookback 5) makes two calls. *)
Example collect_rewards_flat8 :
  collect_rewards (fun _ _ => Fin 0) (repeat flat_bar 8) 10 = OK (Some [0 # 100; 0 # 100]%Q).
Proof. vm_compute. reflexivity. Qed.

(** * Further properties of the environment *)

(** ** A trade moves value between cash and shares *)







(** ** Buying all one can, selling all one has *)










(** ** The cursor *)

Lemma reachable_cursor_le (s0 s : Env) :
  (lookback s0 <= length (df s0))%nat ->
  reachable s0 s ->
  (current_step s <= length (df s0))%nat.
Proof.
  intros HL Hreach. induction Hreach as [|s a Hreach IH].
  - rewrite reset_run; simpl. exact HL.
  - destruct (reachable_cursor s0 s Hreach) as ((Hdf & _) & _).
    destruct (step_state_cases a s) as [->|(row & t & s1 & Hrow & _ & ->)].
    + exact IH.
    + simpl. assert (current_step s < length (df s))%nat; [|rewrite <- Hdf; lia].
      apply nth_error_Some. rewrite Hrow. discriminate.
Qed.

(** X7: on a table of at least [lookback] bars, the cursor of every state
    reached from a reset stays between [lookback] and the length of the
    table, also when [step] is called after [done]; a call of [step] never
    moves it back and moves it by at most one bar. *)
Theorem cursor_stays_in_table (s0 s : Env) (a : pyfloat) :
  (lookback s0 <= length (df s0))%nat ->
  reachable s0 s ->
  (lookback s0 <= current_step s <= length (df s0))%nat /\
  (current_step s <= current_step (snd (step a s)) <= current_step s + 1)%nat /\
  df s = df s0.
Proof.
  intros HL Hreach.
  destruct (reachable_cursor s0 s Hreach) as ((Hdf & _) & Hlo).
  pose proof (reachable_cursor_le s0 s HL Hreach) as Hhi.
  split; [lia|]. split; [|exact Hdf].
  destruct (step_state_cases a s) as [->|(row & t & s1 & _ & _ & ->)]; simpl; lia.
Qed.

Lemma cursor_stays_in_table_witness :
  (lookback rising4 <= length (df rising4))%nat /\
  reachable rising4 rising4_end /\
  (lookback rising4 <= current_step rising4_end <= length (df rising4))%nat /\
  (current_step rising4_end <= current_step (snd (step (Fin 1) rising4_end))
   <= current_step rising4_end + 1)%nat /\
  df rising4_end = df rising4.
Proof.
  assert (R : reachable rising4 rising4_end).
  { exact (reach_step rising4 _ (Fin 0)
             (reach_step rising4 _ (Fin 0) (reach_reset rising4))). }
  split; [simpl; lia|]. split; [exact R|].
  apply (cursor_stays_in_table rising4 rising4_end (Fin 1)); [simpl; lia | exact R].
Defined.

(** ** Episodes: the rewards and the final value *)





Lemma iloc_int_nonneg (table : DataFrame) (i : nat) (row : Bar) :
  nth_error table i = Some row -> iloc_int table (Z.of_nat i) = OK row.
Proof.
  intro H. unfold iloc_int.
  assert (Hlt : (i < length table)%nat) by (apply nth_error_Some; rewrite H; discriminate).
  destruct (Z.of_nat i <? 0) eqn:E1; [apply Z.ltb_lt in E1; lia|].
  rewrite E1.
  destruct (Z.of_nat (length table) <=? Z.of_nat i) eqn:E2; [apply Z.leb_le in E2; lia|].
  simpl. rewrite Nat2Z.id. unfold iloc. rewrite H. reflexivity.
Qed.






(** The episode of the four-bar table for an agent that always buys all it
    can: 500 shares at 20 on the first call, none on the second. *)
Example shares_traded_rising4 :
  match fst (episode_locals (fun _ _ => Fin 1) 3 rising4) with
  | OK (Some calls) => map shares_traded calls
  | _ => []
  end = [500; 0].
Proof. vm_compute. reflexivity. Qed.



(** The value [eval_agent] gives on the four-bar table for an agent that
    buys at 20 and holds: 500 shares valued at 30, not at the last 40. *)
Example eval_agent_rising4 :
  match fst (eval_agent (fun _ _ => Fin 1) 5 rising4) with
  | OK (Some v) => Qred v
  | _ => 0%Q
  end = 15000%Q.
Proof. vm_compute. reflexivity. Qed.

(** ** [collect_rewards] on short tables *)



(** Five rows: the first [step] is past the table. *)
Example collect_rewards_five_rows :
  collect_rewards (fun _ _ => Fin 0) (repeat flat_bar 5) 10 = Raise IndexError.
Proof. vm_compute. reflexivity. Qed.

(** Six rows: one call, one reward. *)
Example collect_rewards_six_rows :
  collect_rewards (fun _ _ => Fin 0) (repeat flat_bar 6) 10 = OK (Some [0 # 100]%Q).
Proof. vm_compute. reflexivity. Qed.

(** * The functions around the environment *)

(** ** The chronological split *)

Lemma slice_bound_range (len k : Z) : 0 <= len -> 0 <= slice_bound len k <= len.
Proof.
  intro H. unfold slice_bound. destruct (k <? 0) eqn:E.
  - apply Z.ltb_lt in E. lia.
  - apply Z.ltb_ge in E. lia.
Qed.

Lemma slice_to_firstn (table : DataFrame) (k : Z) :
  slice_to table k =
  firstn (Z.to_nat (slice_bound (Z.of_nat (length table)) k)) table.
Proof.
  unfold slice_to, iloc_slice.
  assert (H0 : slice_bound (Z.of_nat (length table)) 0 = 0).
  { unfold slice_bound. simpl. lia. }
  rewrite H0, Z.sub_0_r. reflexivity.
Qed.

Lemma slice_from_skipn (table : DataFrame) (k : Z) :
  slice_from table k =
  skipn (Z.to_nat (slice_bound (Z.of_nat (length table)) k)) table.
Proof.
  unfold slice_from, iloc_slice.
  pose proof (slice_bound_range (Z.of_nat (length table)) k (Nat2Z.is_nonneg _)) as Hk.
  assert (Hlen : slice_bound (Z.of_nat (length table)) (Z.of_nat (length table))
                 = Z.of_nat (length table)).
  { unfold slice_bound.
    destruct (Z.of_nat (length table) <? 0) eqn:E; [apply Z.ltb_lt in E; lia | lia]. }
  rewrite Hlen. apply firstn_all2. rewrite length_skipn. lia.
Qed.

(** X11: whatever the ratio (also negative, or above 1), the two parts
    [train_test_split] returns are a prefix and the rest of the table: put
    back together they are the table, no row lost, repeated or moved. *)
Theorem train_test_split_partition (table : DataFrame) (train_ratio : Q) :
  fst (train_test_split table train_ratio)
  ++ snd (train_test_split table train_ratio) = table /\
  exists n : nat,
    fst (train_test_split table train_ratio) = firstn n table /\
    snd (train_test_split table train_ratio) = skipn n table.
Proof.
  unfold train_test_split; simpl.
  rewrite slice_to_firstn, slice_from_skipn.
  split; [apply firstn_skipn|].
  eexists. split; reflexivity.
Qed.

(** Eight rows at the default ratio 0.8: six for training, two for test. *)
Example train_test_split_eight :
  (length (fst (train_test_split (repeat flat_bar 8) (4 # 5))),
   length (snd (train_test_split (repeat flat_bar 8) (4 # 5)))) = (6%nat, 2%nat).
Proof. vm_compute. reflexivity. Qed.

(** ** The buy-and-hold baseline *)

Lemma iloc_int_first (table : DataFrame) (row : Bar) :
  nth_error table 0 = Some row -> iloc_int table 0 = OK row.
Proof. intro H. apply (iloc_int_nonneg table 0 row H). Qed.

Lemma iloc_int_last (table : DataFrame) (row : Bar) :
  nth_error table (length table - 1) = Some row -> iloc_int table (-1) = OK row.
Proof.
  intro H. unfold iloc_int.
  assert (Hlt : (length table - 1 < length table)%nat)
    by (apply nth_error_Some; rewrite H; discriminate).
  assert (E1 : (-1 + Z.of_nat (length table) <? 0) = false) by (apply Z.ltb_ge; lia).
  assert (E2 : (Z.of_nat (length table) <=? -1 + Z.of_nat (length table)) = false)
    by (apply Z.leb_gt; lia).
  cbv zeta. change (-1 <? 0) with true. cbv iota. rewrite E1, E2. cbn [orb].
  replace (Z.to_nat (-1 + Z.of_nat (length table))) with (length table - 1)%nat by lia.
  unfold iloc. rewrite H. reflexivity.
Qed.

(** X13: the baseline on an empty test table raises IndexError (value
    and price change alike).  On a table whose first close is at most
    1000, so that 10000 pays for the 10 shares, its profit over 10000 is
    10 times the price change; on a dearer first close the 10 shares are
    counted all the same and the value is 10 times the last close. *)
Theorem buy_hold_val_cases (test_df : DataFrame) :
  (test_df = [] ->
   buy_hold_val test_df = Raise IndexError /\
   price_change test_df = Raise IndexError) /\
  (forall first last : Bar,
     nth_error test_df 0 = Some first ->
     nth_error test_df (length test_df - 1) = Some last ->
     exists v pc,
       buy_hold_val test_df = OK v /\
       price_change test_df = OK pc /\
       pc = (Close last - Close first)%Q /\
       ((10 * Close first <= 10000)%Q -> (v - 10000 == 10 * pc)%Q) /\
       ((10000 < 10 * Close first)%Q -> (v == 10 * Close last)%Q)).
Proof.
  split.
  - intros ->. split; reflexivity.
  - intros first last Hf Hl.
    unfold buy_hold_val, price_change.
    rewrite (iloc_int_first _ _ Hf), (iloc_int_last _ _ Hl).
    eexists; eexists. split; [reflexivity|]. split; [reflexivity|].
    split; [reflexivity|].
    destruct (Qle_bool (10 * Close first) 10000) eqn:E.
    + split.
      * intros _. ring.
      * intro Hgt. apply Qle_bool_iff in E. exfalso.
        apply (Qlt_not_le _ _ Hgt E).
    + split.
      * intro Hle. apply Qle_bool_iff in Hle. congruence.
      * intros _. ring.
Qed.

(** The four rising bars: 10 shares bought at 10 and valued at 40. *)
Example buy_hold_rising4 :
  match buy_hold_val (df rising4) with OK v => Qred v | Raise _ => 0%Q end = 10300%Q.
Proof. vm_compute. reflexivity. Qed.

(** ** Padding and averaging reward sequences *)

Lemma max_len_ge (seq_list : list (list Q)) (s : list Q) :
  In s seq_list ->
  (length s <= fold_right Nat.max 0 (map (@length Q) seq_list))%nat.
Proof.
  induction seq_list as [|x l IH]; intro H; [contradiction|].
  simpl. destruct H as [->|H]; [lia|]. specialize (IH H). lia.
Qed.

Lemma max_len_attained (seq_list : list (list Q)) :
  seq_list <> [] ->
  exists s, In s seq_list /\
            length s = fold_right Nat.max 0%nat (map (@length Q) seq_list).
Proof.
  induction seq_list as [|x l IH]; intro H; [congruence|].
  destruct l as [|y l'].
  - exists x. split; [left; reflexivity|]. simpl. lia.
  - destruct IH as (s & Hin & Hlen); [discriminate|].
    destruct (Nat.le_ge_cases (length x)
                (fold_right Nat.max 0%nat (map (@length Q) (y :: l')))) as [Hle|Hge].
    + exists s. split; [right; exact Hin|].
      change (fold_right Nat.max 0%nat (map (@length Q) (x :: y :: l')))
        with (Nat.max (length x) (fold_right Nat.max 0%nat (map (@length Q) (y :: l')))).
      lia.
    + exists x. split; [left; reflexivity|].
      change (fold_right Nat.max 0%nat (map (@length Q) (x :: y :: l')))
        with (Nat.max (length x) (fold_right Nat.max 0%nat (map (@length Q) (y :: l')))).
      lia.
Qed.

Lemma max_len_of_cons (s : list Q) (l : list (list Q)) :
  max_len_of (s :: l) = OK (fold_right Nat.max 0%nat (map (@length Q) (s :: l))).
Proof. reflexivity. Qed.

(** X14: [pad_sequences] raises ValueError on an empty list of
    sequences.  Otherwise it returns one row per sequence, in order, each as
    long as the longest sequence: the sequence itself followed by NaN only;
    at least one row has no padding. *)
Theorem pad_sequences_shape (seq_list : list (list Q)) :
  (seq_list = [] -> pad_sequences seq_list = Raise ValueError) /\
  (seq_list <> [] ->
   exists (arr : list (list pyfloat)) (max_len : nat),
     pad_sequences seq_list = OK arr /\
     max_len_of seq_list = OK max_len /\
     length arr = length seq_list /\
     (exists s, In s seq_list /\ length s = max_len) /\
     (forall i s, nth_error seq_list i = Some s ->
        exists row,
          nth_error arr i = Some row /\
          length row = max_len /\
          firstn (length s) row = map Fin s /\
          skipn (length s) row = repeat NaN (max_len - length s))).
Proof.
  split; [intros ->; reflexivity|].
  intro Hne. destruct seq_list as [|s0 l]; [congruence|].
  set (M := fold_right Nat.max 0%nat (map (@length Q) (s0 :: l))).
  exists (map (fun s => map Fin s ++ repeat NaN (M - length s)) (s0 :: l)), M.
  split; [reflexivity|]. split; [reflexivity|].
  split; [apply length_map|].
  split; [apply max_len_attained; exact Hne|].
  intros i s Hi.
  exists (map Fin s ++ repeat NaN (M - length s)).
  split; [rewrite nth_error_map, Hi; reflexivity|].
  pose proof (max_len_ge (s0 :: l) s (nth_error_In _ _ Hi)) as Hle. fold M in Hle.
  split; [rewrite length_app, length_map, repeat_length; lia|].
  split.
  - rewrite firstn_app, length_map, Nat.sub_diag. simpl. rewrite app_nil_r.
    rewrite <- (length_map Fin s) at 1. apply firstn_all.
  - rewrite skipn_app, length_map, Nat.sub_diag. simpl.
    rewrite <- (length_map Fin s) at 1. rewrite skipn_all. reflexivity.
Qed.

Lemma nth_padded (s : list Q) (n j : nat) :
  nth j (map Fin s ++ repeat NaN n) NaN =
  match nth_error s j with Some x => Fin x | None => NaN end.
Proof.
  destruct (nth_error s j) as [x|] eqn:E.
  - assert (Hlt : (j < length s)%nat) by (apply nth_error_Some; rewrite E; discriminate).
    rewrite app_nth1 by (rewrite length_map; exact Hlt).
    apply nth_error_nth. rewrite nth_error_map, E. reflexivity.
  - apply nth_error_None in E.
    rewrite app_nth2 by (rewrite length_map; exact E).
    destruct (Nat.lt_ge_cases (j - length (map Fin s)) n) as [Hlt|Hge].
    + apply nth_error_nth. rewrite nth_error_repeat by exact Hlt. reflexivity.
    + apply nth_overflow. rewrite repeat_length. exact Hge.
Qed.

Lemma padded_column (M j : nat) (seq_list : list (list Q)) :
  filter (fun x => negb (is_nan x))
         (map (fun r => nth j r NaN)
              (map (fun s => map Fin s ++ repeat NaN (M - length s)) seq_list)) =
  map Fin (entries_at j seq_list).
Proof.
  unfold entries_at.
  induction seq_list as [|s l IH]; [reflexivity|].
  simpl. rewrite nth_padded, map_app, <- IH.
  destruct (nth_error s j); reflexivity.
Qed.

Lemma pf_sum_Fin (xs : list Q) : pf_sum (map Fin xs) = Fin (Qsum xs).
Proof.
  induction xs as [|x xs IH]; [reflexivity|].
  unfold pf_sum in *. simpl. rewrite IH. reflexivity.
Qed.

Lemma entries_at_nonempty (j : nat) (seq_list : list (list Q)) (s : list Q) :
  In s seq_list -> (j < length s)%nat -> entries_at j seq_list <> [].
Proof.
  unfold entries_at. induction seq_list as [|x l IH]; intros Hin Hj; [contradiction|].
  simpl. destruct Hin as [->|Hin].
  - destruct (nth_error s j) eqn:E; [discriminate|].
    apply nth_error_None in E. lia.
  - intro H. apply app_eq_nil in H. destruct H as [_ H]. exact (IH Hin Hj H).
Qed.

(** X15: averaging the padded array column by column ignores the
    padding.  For a non-empty list of sequences the result has the length
    of the longest sequence, and its entry j is the plain mean of the j-th
    entries of the sequences that have one (there is at least one); no
    entry is NaN. *)
Theorem nanmean_of_padded (seq_list : list (list Q)) :
  seq_list <> [] ->
  exists (arr : list (list pyfloat)) (max_len : nat),
    pad_sequences seq_list = OK arr /\
    max_len_of seq_list = OK max_len /\
    length (nanmean_axis0 arr) = max_len /\
    (forall j, (j < max_len)%nat ->
       entries_at j seq_list <> [] /\
       nth_error (nanmean_axis0 arr) j =
       Some (Fin (Qsum (entries_at j seq_list)
                  / inject_Z (Z.of_nat (length (entries_at j seq_list)))))).
Proof.
  intro Hne. destruct seq_list as [|s0 l]; [congruence|].
  set (M := fold_right Nat.max 0%nat (map (@length Q) (s0 :: l))).
  set (pad := fun s : list Q => map Fin s ++ repeat NaN (M - length s)).
  exists (map pad (s0 :: l)), M.
  split; [reflexivity|]. split; [reflexivity|].
  assert (Hrow : length (pad s0) = M).
  { pose proof (max_len_ge (s0 :: l) s0 (or_introl eq_refl)) as Hle. fold M in Hle.
    unfold pad. rewrite length_app, length_map, repeat_length. lia. }
  assert (Hnm : nanmean_axis0 (map pad (s0 :: l)) =
                map (fun j => nanmean (map (fun r => nth j r NaN) (map pad (s0 :: l))))
                    (seq 0 M)).
  { change (map pad (s0 :: l)) with (pad s0 :: map pad l) at 1.
    unfold nanmean_axis0. rewrite Hrow. reflexivity. }
  split; [rewrite Hnm, length_map, length_seq; reflexivity|].
  intros j Hj.
  destruct (max_len_attained (s0 :: l) Hne) as (s & Hin & Hlen). fold M in Hlen.
  assert (Hent : entries_at j (s0 :: l) <> []).
  { apply (entries_at_nonempty j (s0 :: l) s Hin). lia. }
  split; [exact Hent|].
  rewrite Hnm, nth_error_map, nth_error_seq.
  destruct (Nat.ltb_spec j M) as [_|Hge]; [|lia].
  cbn [option_map Nat.add]. f_equal.
  unfold nanmean, pad. rewrite padded_column.
  destruct (entries_at j (s0 :: l)) as [|x xs] eqn:E; [congruence|].
  cbn [map].
  change (Fin x :: map Fin xs) with (map Fin (x :: xs)).
  rewrite pf_sum_Fin, length_map. reflexivity.
Qed.

Lemma nanmean_of_padded_witness :
  [[1; 2; 3]; [5]]%Q <> [] /\
  exists (arr : list (list pyfloat)) (max_len : nat),
    pad_sequences [[1; 2; 3]; [5]]%Q = OK arr /\
    max_len_of [[1; 2; 3]; [5]]%Q = OK max_len /\
    length (nanmean_axis0 arr) = max_len /\
    (forall j, (j < max_len)%nat ->
       entries_at j [[1; 2; 3]; [5]]%Q <> [] /\
       nth_error (nanmean_axis0 arr) j =
       Some (Fin (Qsum (entries_at j [[1; 2; 3]; [5]]%Q)
                  / inject_Z (Z.of_nat (length (entries_at j [[1; 2; 3]; [5]]%Q)))))).
Proof.
  split; [discriminate|].
  apply (nanmean_of_padded [[1; 2; 3]; [5]]%Q). discriminate.
Defined.

(** Two sequences of lengths 3 and 1: the means are 3, 2 and 3. *)
Example nanmean_of_padded_example :
  match pad_sequences [[1; 2; 3]; [5]]%Q with
  | OK arr => map (fun x => match x with Fin q => Some (Qred q) | _ => None end)
                  (nanmean_axis0 arr)
  | Raise _ => []
  end = [Some 3%Q; Some 2%Q; Some 3%Q].
Proof. vm_compute. reflexivity. Qed.

(** ** Preparing the table *)

Lemma list_as_map_seq {A : Type} (d : A) (l : list A) :
  l = map (fun i => nth i l d) (seq 0 (length l)).
Proof.
  induction l as [|x l IH]; [reflexivity|].
  simpl. f_equal. rewrite <- seq_shift, map_map. exact IH.
Qed.

Lemma combine_map_same {A B C : Type} (f : A -> B) (g : A -> C) (l : list A) :
  combine (map f l) (map g l) = map (fun i => (f i, g i)) l.
Proof.
  induction l as [|x l IH]; [reflexivity|]. simpl. rewrite IH. reflexivity.
Qed.

Lemma flat_map_of_map {A B C : Type} (f : B -> list C) (g : A -> B) (l : list A) :
  flat_map f (map g l) = flat_map (fun x => f (g x)) l.
Proof.
  induction l as [|x l IH]; [reflexivity|]. simpl. rewrite IH. reflexivity.
Qed.

Lemma flat_map_singletons {A B : Type} (h : A -> B) (l : list A) :
  flat_map (fun i => [h i]) l = map h l.
Proof.
  induction l as [|x l IH]; [reflexivity|]. simpl. rewrite IH. reflexivity.
Qed.

Lemma flat_map_from {B : Type} (h : nat -> B) (c n : nat) :
  flat_map (fun i => if (c <=? i)%nat then [h i] else []) (seq 0 n) =
  map h (seq c (n - c)).
Proof.
  destruct (Nat.le_gt_cases n c) as [Hle|Hgt].
  - replace (n - c)%nat with 0%nat by lia. simpl.
    assert (H : forall l, (forall i, In i l -> (i < c)%nat) ->
                flat_map (fun i => if (c <=? i)%nat then [h i] else []) l = []).
    { induction l as [|x l IH]; intro Hl; [reflexivity|].
      simpl. destruct (Nat.leb_spec c x) as [Hcx|_].
      - specialize (Hl x (or_introl eq_refl)). lia.
      - apply IH. intros i Hi. apply Hl. right. exact Hi. }
    apply H. intros i Hi. apply in_seq in Hi. lia.
  - replace n with (c + (n - c))%nat at 1 by lia.
    rewrite seq_app, flat_map_app. simpl.
    assert (H1 : flat_map (fun i => if (c <=? i)%nat then [h i] else []) (seq 0 c) = []).
    { assert (H : forall l, (forall i, In i l -> (i < c)%nat) ->
                  flat_map (fun i => if (c <=? i)%nat then [h i] else []) l = []).
      { induction l as [|x l IH]; intro Hl; [reflexivity|].
        simpl. destruct (Nat.leb_spec c x) as [Hcx|_].
        - specialize (Hl x (or_introl eq_refl)). lia.
        - apply IH. intros i Hi. apply Hl. right. exact Hi. }
      apply H. intros i Hi. apply in_seq in Hi. lia. }
    rewrite H1. simpl.
    assert (H2 : forall l, (forall i, In i l -> (c <= i)%nat) ->
                 flat_map (fun i => if (c <=? i)%nat then [h i] else []) l = map h l).
    { induction l as [|x l IH]; intro Hl; [reflexivity|].
      simpl. destruct (Nat.leb_spec c x) as [_|Hcx].
      - simpl. f_equal. apply IH. intros i Hi. apply Hl. right. exact Hi.
      - specialize (Hl x (or_introl eq_refl)). lia. }
    apply H2. intros i Hi. apply in_seq in Hi. lia.
Qed.

(** The rows [preprocess] builds: row [i] of the complete rows with the
    means of the closes that end there. *)
Lemma preprocess_closed_form (raw : list RawRow) :
  preprocess raw =
  map (fun i =>
         mkBar (o_open (nth i (dropna_raw raw) (mkOHLC 0 0 0 0)))
               (o_high (nth i (dropna_raw raw) (mkOHLC 0 0 0 0)))
               (o_low (nth i (dropna_raw raw) (mkOHLC 0 0 0 0)))
               (o_close (nth i (dropna_raw raw) (mkOHLC 0 0 0 0)))
               (close_mean 5 (dropna_raw raw) i)
               (close_mean 20 (dropna_raw raw) i))
      (seq 19 (length (dropna_raw raw) - 19)).
Proof.
  unfold preprocess.
  set (rows := dropna_raw raw).
  unfold with_sma, rolling_mean. rewrite length_map.
  rewrite (list_as_map_seq (mkOHLC 0 0 0 0) rows) at 1.
  rewrite !combine_map_same.
  unfold dropna_sma. rewrite flat_map_of_map.
  rewrite <- flat_map_from.
  apply flat_map_ext. intro i.
  fold (close_mean 5 rows i). fold (close_mean 20 rows i).
  destruct (Nat.leb_spec 19 i) as [H19|H19].
  - destruct (Nat.leb_spec 5 (i + 1)) as [_|H5]; [|lia].
    destruct (Nat.leb_spec 20 (i + 1)) as [_|H20]; [|lia].
    reflexivity.
  - destruct (Nat.leb_spec 20 (i + 1)) as [H20|_]; [lia|].
    destruct (5 <=? i + 1)%nat; reflexivity.
Qed.

(** X16: the table the main loop prepares has one row for every complete
    downloaded row but the first 19, in order; row [i] carries the OHLC
    values of complete row [i + 19], as SMA20 the mean of the 20 closes
    that end there and as SMA5 the mean of the last 5 of them.  Fewer than
    20 complete rows give an empty table. *)
Theorem preprocess_rows (raw : list RawRow) :
  length (preprocess raw) = (length (dropna_raw raw) - 19)%nat /\
  (forall i, (i < length (dropna_raw raw) - 19)%nat ->
     exists r,
       nth_error (dropna_raw raw) (i + 19) = Some r /\
       nth_error (preprocess raw) i =
       Some (mkBar (o_open r) (o_high r) (o_low r) (o_close r)
               (Qsum (firstn 5 (skipn (i + 15) (map o_close (dropna_raw raw)))) / 5)%Q
               (Qsum (firstn 20 (skipn i (map o_close (dropna_raw raw)))) / 20)%Q)).
Proof.
  rewrite preprocess_closed_form.
  split; [rewrite length_map, length_seq; reflexivity|].
  intros i Hi.
  destruct (nth_error (dropna_raw raw) (i + 19)) as [r|] eqn:E;
    [|apply nth_error_None in E; lia].
  exists r. split; [reflexivity|].
  rewrite nth_error_map, nth_error_seq.
  destruct (Nat.ltb_spec i (length (dropna_raw raw) - 19)) as [_|Hge]; [|lia].
  cbn [option_map].
  replace (19 + i)%nat with (i + 19)%nat by lia.
  rewrite (nth_error_nth _ _ (mkOHLC 0 0 0 0) E).
  unfold close_mean.
  replace (i + 19 + 1 - 5)%nat with (i + 15)%nat by lia.
  replace (i + 19 + 1 - 20)%nat with i by lia.
  reflexivity.
Qed.

(** The prepared table of [raw22]: two rows, for the closes 20 and 21. *)
Example preprocess_raw22 :
  map (fun b => (Qred (Close b), Qred (SMA5 b), Qred (SMA20 b))) (preprocess raw22)
  = [(20, 18, 21 # 2); (21, 19, 23 # 2)]%Q.
Proof. vm_compute. reflexivity. Qed.

Lemma Forall_firstn {A : Type} (P : A -> Prop) (n : nat) (l : list A) :
  Forall P l -> Forall P (firstn n l).
Proof.
  intro H. rewrite <- (firstn_skipn n l) in H. apply Forall_app in H. apply H.
Qed.

Lemma Forall_skipn {A : Type} (P : A -> Prop) (n : nat) (l : list A) :
  Forall P l -> Forall P (skipn n l).
Proof.
  intro H. rewrite <- (firstn_skipn n l) in H. apply Forall_app in H. apply H.
Qed.

Lemma Qsum_positive (l : list Q) :
  l <> [] -> Forall (fun x => (0 < x)%Q) l -> (0 < Qsum l)%Q.
Proof.
  induction l as [|x l IH]; intros Hne Hall; [congruence|].
  inversion Hall as [|? ? Hx Hl]; subst. simpl.
  destruct l as [|y l'].
  - simpl. rewrite Qplus_0_r. exact Hx.
  - rewrite <- (Qplus_0_r 0).
    apply Qplus_lt_le_compat; [exact Hx|].
    apply Qlt_le_weak. apply IH; [discriminate | exact Hl].
Qed.

Lemma close_mean_positive (w : nat) (rows : list OHLC) (i : nat) :
  (1 <= w)%nat -> (w <= i + 1)%nat -> (i < length rows)%nat ->
  Forall (fun r => (0 < o_close r)%Q) rows ->
  (0 < close_mean w rows i)%Q.
Proof.
  intros Hw Hi Hlen Hall. unfold close_mean.
  assert (Hpos : Forall (fun x => (0 < x)%Q) (map o_close rows)).
  { apply Forall_map. exact Hall. }
  apply Qlt_shift_div_l.
  - change 0%Q with (inject_Z 0). rewrite <- Zlt_Qlt. lia.
  - rewrite Qmult_0_l. apply Qsum_positive.
    + intro E. apply (f_equal (@length Q)) in E.
      rewrite length_firstn, length_skipn, length_map in E. simpl in E. lia.
    + apply Forall_firstn, Forall_skipn. exact Hpos.
Qed.

Lemma dropna_raw_positive (raw : list RawRow) :
  Forall (fun r => forall c, raw_close r = Some c -> (0 < c)%Q) raw ->
  Forall (fun r => (0 < o_close r)%Q) (dropna_raw raw).
Proof.
  intro H. unfold dropna_raw. apply Forall_flat_map.
  eapply Forall_impl; [|exact H].
  intros r Hr. simpl in Hr.
  destruct (raw_open r), (raw_high r), (raw_low r), (raw_close r) as [c|];
    try constructor.
  - apply Hr. reflexivity.
  - constructor.
Qed.

(** X17: when every close that is a number in the downloaded table is
    positive, every row of the prepared table has a positive close, SMA5
    and SMA20, and so have the rows of both parts of the split, whatever
    the ratio: the environments are built on positive closes. *)
Theorem preprocess_positive (raw : list RawRow) (train_ratio : Q) :
  Forall (fun r => forall c, raw_close r = Some c -> (0 < c)%Q) raw ->
  Forall (fun b => (0 < Close b)%Q /\ (0 < SMA5 b)%Q /\ (0 < SMA20 b)%Q)
         (preprocess raw) /\
  prices_positive (fst (train_test_split (preprocess raw) train_ratio)) /\
  prices_positive (snd (train_test_split (preprocess raw) train_ratio)).
Proof.
  intro Hraw.
  pose proof (dropna_raw_positive raw Hraw) as Hrows.
  assert (Hall : Forall (fun b => (0 < Close b)%Q /\ (0 < SMA5 b)%Q /\ (0 < SMA20 b)%Q)
                        (preprocess raw)).
  { rewrite preprocess_closed_form. apply Forall_map. apply Forall_forall.
    intros i Hi. apply in_seq in Hi. simpl.
    assert (Hlt : (i < length (dropna_raw raw))%nat) by lia.
    split; [|split].
    - rewrite Forall_forall in Hrows. apply Hrows. apply nth_In. exact Hlt.
    - apply close_mean_positive; try assumption; lia.
    - apply close_mean_positive; try assumption; lia. }
  assert (Hpp : prices_positive (preprocess raw)).
  { unfold prices_positive. eapply Forall_impl; [|exact Hall]. intros b Hb. apply Hb. }
  split; [exact Hall|].
  unfold train_test_split; cbn [fst snd].
  rewrite slice_to_firstn, slice_from_skipn.
  split; [apply Forall_firstn | apply Forall_skipn]; exact Hpp.
Qed.

Lemma raw22_closes :
  Forall (fun r => forall c, raw_close r = Some c -> (0 < c)%Q) raw22.
Proof.
  unfold raw22. constructor.
  - intros c H. inversion H. reflexivity.
  - apply Forall_map. apply Forall_forall. intros i Hi. apply in_seq in Hi.
    simpl. intros c H. inversion H.
    change 0%Q with (inject_Z 0). rewrite <- Zlt_Qlt. lia.
Qed.

Lemma preprocess_positive_witness :
  Forall (fun r => forall c, raw_close r = Some c -> (0 < c)%Q) raw22 /\
  Forall (fun b => (0 < Close b)%Q /\ (0 < SMA5 b)%Q /\ (0 < SMA20 b)%Q)
         (preprocess raw22) /\
  prices_positive (fst (train_test_split (preprocess raw22) (4 # 5))) /\
  prices_positive (snd (train_test_split (preprocess raw22) (4 # 5))).
Proof.
  split; [exact raw22_closes|].
  exact (preprocess_positive raw22 (4 # 5) raw22_closes).
Defined.

(** * Edge cases of the environment *)



(** X19: on a table with fewer rows than [lookback] nothing is refused
    at [reset]: it returns an observation built from the whole table, of
    length 6 * N + 2, shorter than the [state_size] announced; the first
    [step] then raises IndexError and leaves the environment as it was. *)
Theorem reset_on_short_table (s0 : Env) (a : pyfloat) :
  (length (df s0) < lookback s0)%nat ->
  exists o : Observation,
    reset s0 = (OK o, snd (reset s0)) /\
    length o = (6 * length (df s0) + 2)%nat /\
    (length o < state_size s0)%nat /\
    step a (snd (reset s0)) = (Raise IndexError, snd (reset s0)).
Proof.
  intro Hshort.
  assert (Hwin : window (snd (reset s0)) = df s0).
  { rewrite reset_run. unfold window, iloc_slice, slice_bound; simpl.
    rewrite Z.sub_diag. simpl.
    destruct (Z.of_nat (lookback s0) <? 0) eqn:E; [apply Z.ltb_lt in E; lia|].
    replace (Z.min 0 (Z.of_nat (length (df s0)))) with 0 by lia.
    replace (Z.min (Z.of_nat (lookback s0)) (Z.of_nat (length (df s0))))
      with (Z.of_nat (length (df s0))) by lia.
    rewrite Z.sub_0_r, Nat2Z.id. simpl. apply firstn_all. }
  assert (Hlen : length (encode (snd (reset s0))) = (6 * length (df s0) + 2)%nat).
  { unfold encode. rewrite Hwin. fold (ohlc_of (df s0)).
    rewrite !length_app, ohlc_of_length, !length_map. simpl. lia. }
  exists (encode (snd (reset s0))).
  split; [apply reset_run|]. split; [exact Hlen|].
  split; [rewrite Hlen; unfold state_size; lia|].
  apply step_past_end. rewrite reset_run; simpl. lia.
Qed.

Lemma reset_on_short_table_witness :
  (length (df (init (repeat flat_bar 3) 5)) < lookback (init (repeat flat_bar 3) 5))%nat /\
  exists o : Observation,
    reset (init (repeat flat_bar 3) 5) = (OK o, snd (reset (init (repeat flat_bar 3) 5))) /\
    length o = (6 * length (df (init (repeat flat_bar 3) 5)) + 2)%nat /\
    (length o < state_size (init (repeat flat_bar 3) 5))%nat /\
    step (Fin 1) (snd (reset (init (repeat flat_bar 3) 5))) =
      (Raise IndexError, snd (reset (init (repeat flat_bar 3) 5))).
Proof.
  split; [simpl; lia|].
  apply (reset_on_short_table (init (repeat flat_bar 3) 5) (Fin 1)). simpl; lia.
Defined.

(** * Instances of the properties stated by cases *)


Lemma buy_hold_val_cases_witness :
  (buy_hold_val [] = Raise IndexError /\ price_change [] = Raise IndexError) /\
  exists v pc,
    buy_hold_val (df rising4) = OK v /\
    price_change (df rising4) = OK pc /\
    pc = (Close (mkBar 40 40 40 40 40 40) - Close (mkBar 10 10 10 10 10 10))%Q /\
    ((10 * Close (mkBar 10 10 10 10 10 10) <= 10000)%Q -> (v - 10000 == 10 * pc)%Q) /\
    ((10000 < 10 * Close (mkBar 10 10 10 10 10 10))%Q ->
     (v == 10 * Close (mkBar 40 40 40 40 40 40))%Q).
Proof.
  split.
  - apply (proj1 (buy_hold_val_cases [])). reflexivity.
  - apply (proj2 (buy_hold_val_cases (df rising4))
             (mkBar 10 10 10 10 10 10) (mkBar 40 40 40 40 40 40)); reflexivity.
Defined.

Lemma pad_sequences_shape_witness :
  pad_sequences [] = Raise ValueError /\
  exists (arr : list (list pyfloat)) (max_len : nat),
    pad_sequences [[1; 2; 3]; [5]]%Q = OK arr /\
    max_len_of [[1; 2; 3]; [5]]%Q = OK max_len /\
    length arr = length [[1; 2; 3]; [5]]%Q /\
    (exists s, In s [[1; 2; 3]; [5]]%Q /\ length s = max_len) /\
    (forall i s, nth_error [[1; 2; 3]; [5]]%Q i = Some s ->
       exists row,
         nth_error arr i = Some row /\
         length row = max_len /\
         firstn (length s) row = map Fin s /\
         skipn (length s) row = repeat NaN (max_len - length s)).
Proof.
  split.
  - apply (proj1 (pad_sequences_shape [])). reflexivity.
  - apply (proj2 (pad_sequences_shape [[1; 2; 3]; [5]]%Q)). discriminate.
Defined.

(** * The environment in binary64: proofs *)

Import PrimFloat SpecFloat FloatOps FloatAxioms.

(** ** Facts on binary64 comparisons *)

Lemma SFcompare_antisym (x y : spec_float) :
  SFcompare y x = option_map CompOpp (SFcompare x y).
Proof.
  destruct x as [sx|sx| |sx mx ex], y as [sy|sy| |sy my ey]; simpl;
    try reflexivity;
    try (destruct sx; reflexivity); try (destruct sy; reflexivity);
    try (destruct sx, sy; reflexivity).
  destruct sx, sy; simpl; try reflexivity;
    rewrite (Z.compare_antisym ex ey);
    destruct (ex ?= ey); simpl; try reflexivity;
    rewrite (Pos.compare_cont_antisym mx my Eq); simpl; reflexivity.
Qed.

Lemma ltb_asym (x y : float) : (x <? y)%float = true -> (y <? x)%float = false.
Proof.
  rewrite !ltb_spec. unfold SFltb. rewrite (SFcompare_antisym (Prim2SF x) (Prim2SF y)).
  destruct (SFcompare (Prim2SF x) (Prim2SF y)) as [[| |]|]; simpl; congruence.
Qed.

Lemma eqb_not_ltb (x y : float) :
  (x =? y)%float = true -> (x <? y)%float = false /\ (y <? x)%float = false.
Proof.
  rewrite eqb_spec, !ltb_spec. unfold SFeqb, SFltb.
  rewrite (SFcompare_antisym (Prim2SF x) (Prim2SF y)).
  destruct (SFcompare (Prim2SF x) (Prim2SF y)) as [[| |]|]; simpl; try discriminate.
  split; reflexivity.
Qed.

Lemma is_nan_not_ltb (x y : float) :
  PrimFloat.is_nan x = true -> (x <? y)%float = false /\ (y <? x)%float = false.
Proof.
  unfold PrimFloat.is_nan. rewrite eqb_spec, !ltb_spec. unfold SFeqb, SFltb.
  destruct (Prim2SF x) as [sx|sx| |sx mx ex] eqn:Ex; simpl.
  - discriminate.
  - destruct sx; discriminate.
  - intros _. split; [reflexivity|]. destruct (Prim2SF y); reflexivity.
  - destruct sx; rewrite Z.compare_refl, Pos.compare_cont_refl; discriminate.
Qed.

Lemma is_nan_eq (x : float) : PrimFloat.is_nan x = true -> x = nan.
Proof.
  unfold PrimFloat.is_nan. rewrite eqb_spec. unfold SFeqb. intro H.
  apply Prim2SF_inj. change (Prim2SF nan) with S754_nan.
  destruct (Prim2SF x) as [sx|sx| |sx mx ex]; simpl in H.
  - discriminate.
  - destruct sx; discriminate.
  - reflexivity.
  - destruct sx; rewrite Z.compare_refl, Pos.compare_cont_refl in H; discriminate.
Qed.

(** [x - 0.0] is [x], bit for bit. *)
Lemma sub_zero_r (x : float) : (x - 0)%float = x.
Proof.
  apply Prim2SF_inj. rewrite sub_spec.
  change (Prim2SF 0) with (S754_zero false).
  destruct (Prim2SF x) as [sx|sx| |sx mx ex]; try reflexivity.
  destruct sx; reflexivity.
Qed.

(** ** The clipped action *)

Lemma np_clip_values (a : float) :
  B64.np_clip a (-1) 1 = a \/ B64.np_clip a (-1) 1 = (-1)%float \/
  B64.np_clip a (-1) 1 = 1%float.
Proof.
  unfold B64.np_clip, B64.npy_max.
  destruct (PrimFloat.is_nan a || (-1 <? a)%float) eqn:E1.
  - unfold B64.npy_min.
    destruct (PrimFloat.is_nan a || (a <? 1)%float); [left | right; right]; reflexivity.
  - right; left. reflexivity.
Qed.

Lemma np_clip_idem (a : float) :
  B64.np_clip (B64.np_clip a (-1) 1) (-1) 1 = B64.np_clip a (-1) 1.
Proof.
  destruct (np_clip_values a) as [H|[H|H]]; rewrite H; [exact H | reflexivity | reflexivity].
Qed.

Lemma np_clip_nan : B64.np_clip nan (-1) 1 = nan.
Proof. reflexivity. Qed.

Lemma not_nan_of_ltb (x y : float) :
  (x <? y)%float = true -> PrimFloat.is_nan x = false /\ PrimFloat.is_nan y = false.
Proof.
  intro H. split.
  - destruct (PrimFloat.is_nan x) eqn:E; [|reflexivity].
    destruct (is_nan_not_ltb x y E) as [H1 _]. congruence.
  - destruct (PrimFloat.is_nan y) eqn:E; [|reflexivity].
    destruct (is_nan_not_ltb y x E) as [_ H1]. congruence.
Qed.

Lemma np_clip_below (a : float) :
  (a <? -1)%float = true -> B64.np_clip a (-1) 1 = (-1)%float.
Proof.
  intro H. unfold B64.np_clip, B64.npy_max.
  destruct (not_nan_of_ltb _ _ H) as [Hn _]. rewrite Hn, (ltb_asym _ _ H).
  reflexivity.
Qed.

Lemma one_ltb_minus_one_ltb (a : float) :
  (1 <? a)%float = true -> (-1 <? a)%float = true.
Proof.
  rewrite !ltb_spec.
  change (Prim2SF 1) with (S754_finite false 4503599627370496 (-52)).
  change (Prim2SF (-1)) with (S754_finite true 4503599627370496 (-52)).
  destruct (Prim2SF a) as [s|s| |s m e]; try (destruct s); simpl; try discriminate;
    reflexivity.
Qed.

Lemma np_clip_above (a : float) :
  (1 <? a)%float = true -> B64.np_clip a (-1) 1 = 1%float.
Proof.
  intro H. unfold B64.np_clip, B64.npy_max, B64.npy_min.
  destruct (not_nan_of_ltb _ _ H) as [_ Hn].
  rewrite Hn, (one_ltb_minus_one_ltb _ H). simpl.
  rewrite Hn, (ltb_asym _ _ H). reflexivity.
Qed.

Lemma SFcompare_Eq_finite (s : bool) (m : positive) (e : Z) (y : spec_float) :
  SFcompare (S754_finite s m e) y = Some Eq -> y = S754_finite s m e.
Proof.
  destruct y as [sy|sy| |sy my ey]; simpl.
  - destruct s; discriminate.
  - destruct sy; discriminate.
  - discriminate.
  - destruct s, sy; try discriminate;
      destruct (e ?= ey) eqn:Ee; try discriminate;
      apply Z.compare_eq in Ee; subst ey; intro H;
      assert (Hm : (m ?= my)%positive = Eq)
        by (unfold Pos.compare; destruct (Pos.compare_cont Eq m my); simpl in H; congruence);
      apply Pos.compare_eq in Hm; subst my; reflexivity.
Qed.

Lemma leb_cases (x y : float) :
  (x <=? y)%float = true ->
  (x <? y)%float = true \/ SFcompare (Prim2SF x) (Prim2SF y) = Some Eq.
Proof.
  rewrite leb_spec, ltb_spec. unfold SFleb, SFltb.
  destruct (SFcompare (Prim2SF x) (Prim2SF y)) as [[| |]|]; try discriminate;
    intros _; [right | left]; reflexivity.
Qed.

Lemma np_clip_inside (a : float) :
  (-1 <=? a)%float = true -> (a <=? 1)%float = true -> B64.np_clip a (-1) 1 = a.
Proof.
  intros Hlo Hhi.
  assert (Hn : PrimFloat.is_nan a = false).
  { destruct (PrimFloat.is_nan a) eqn:E; [|reflexivity].
    apply is_nan_eq in E. subst a. discriminate Hlo. }
  assert (Hmax : B64.npy_max a (-1) = a).
  { unfold B64.npy_max. rewrite Hn. simpl.
    destruct (leb_cases _ _ Hlo) as [H|H]; [rewrite H; reflexivity|].
    change (Prim2SF (-1)) with (S754_finite true 4503599627370496 (-52)) in H.
    apply SFcompare_Eq_finite in H.
    assert (a = (-1)%float) by (apply Prim2SF_inj; exact H).
    subst a. reflexivity. }
  unfold B64.np_clip. rewrite Hmax. unfold B64.npy_min. rewrite Hn. simpl.
  destruct (leb_cases _ _ Hhi) as [H|H]; [rewrite H; reflexivity|].
  rewrite SFcompare_antisym in H.
  change (Prim2SF 1) with (S754_finite false 4503599627370496 (-52)) in H.
  destruct (SFcompare (S754_finite false 4503599627370496 (-52)) (Prim2SF a))
    as [[| |]|] eqn:E; try discriminate.
  apply SFcompare_Eq_finite in E.
  assert (a = 1%float) by (apply Prim2SF_inj; exact E).
  subst a. reflexivity.
Qed.

Lemma SFcompare_None (x y : spec_float) :
  SFcompare x y = None -> x = S754_nan \/ y = S754_nan.
Proof.
  destruct x as [sx|sx| |sx mx ex], y as [sy|sy| |sy my ey]; simpl;
    try discriminate; auto.
Qed.

(** A float is NaN, below -1, above 1, or in [-1, 1]. *)
Lemma action_cases (a : float) :
  PrimFloat.is_nan a = true \/ (a <? -1)%float = true \/ (1 <? a)%float = true \/
  ((-1 <=? a)%float = true /\ (a <=? 1)%float = true).
Proof.
  unfold PrimFloat.is_nan. rewrite eqb_spec, !ltb_spec, !leb_spec.
  unfold SFeqb, SFltb, SFleb.
  rewrite (SFcompare_antisym (Prim2SF a) (Prim2SF 1)).
  rewrite (SFcompare_antisym (Prim2SF a) (Prim2SF (-1))).
  destruct (SFcompare (Prim2SF a) (Prim2SF (-1))) as [c2|] eqn:E2.
  - destruct (SFcompare (Prim2SF a) (Prim2SF 1)) as [c1|] eqn:E1.
    + destruct c2; simpl; auto; destruct c1; simpl; auto.
    + left. apply SFcompare_None in E1. destruct E1 as [E1|E1]; [|discriminate E1].
      rewrite E1. reflexivity.
  - left. apply SFcompare_None in E2. destruct E2 as [E2|E2]; [|discriminate E2].
    rewrite E2. reflexivity.
Qed.

(** ** The methods compute their closed forms *)

Lemma get_obs_run64 (s : B64.Env) :
  B64._get_obs s =
  match B64.float_of_int (B64.stock_owned s) with
  | OK kf => (OK (B64.encode s kf), s)
  | Raise e => (Raise e, s)
  end.
Proof.
  unfold B64._get_obs, B64.bind, B64.self_, B64.lift, B64.ret.
  destruct (B64.float_of_int (B64.stock_owned s)); reflexivity.
Qed.

Lemma reset_run64 (s : B64.Env) :
  B64.reset s =
  (OK (B64.encode (B64.set_stock_owned 0 (B64.set_cash (B64.initial_cash s)
                     (B64.set_current_step (B64.lookback s) s))) 0),
   B64.set_stock_owned 0 (B64.set_cash (B64.initial_cash s)
     (B64.set_current_step (B64.lookback s) s))).
Proof. reflexivity. Qed.

Lemma trade_run64 (act p : float) (s : B64.Env) :
  (if (0 <? act)%float then B64.buy act p
   else if (act <? 0)%float then B64.sell act p
   else B64.ret 0) s = B64.trade_pure act p s.
Proof.
  unfold B64.trade_pure.
  destruct (0 <? act)%float.
  - unfold B64.buy. unfold B64.bind at 1. unfold B64.self_ at 1.
    unfold B64.bind at 1. unfold B64.lift at 1.
    destruct (B64.max_buy (B64.cash s) p) as [mb|e]; [|reflexivity].
    unfold B64.bind at 1. unfold B64.lift at 1.
    destruct (B64.shares_bought act mb) as [n|e]; [|reflexivity].
    unfold min_trade_amount.
    destruct (1 <=? n); [|reflexivity].
    unfold B64.bind at 1. unfold B64.lift at 1.
    destruct (B64.int_times n p) as [cost|e]; reflexivity.
  - destruct (act <? 0)%float; [|reflexivity].
    unfold B64.sell. unfold B64.bind at 1. unfold B64.self_ at 1.
    unfold B64.bind at 1. unfold B64.lift at 1.
    destruct (B64.shares_sold act (B64.stock_owned s)) as [n|e]; [|reflexivity].
    unfold min_trade_amount.
    destruct (1 <=? n); [|reflexivity].
    unfold B64.bind at 1. unfold B64.lift at 1.
    destruct (B64.int_times n p) as [gain|e]; reflexivity.
Qed.

Lemma trade_pure_frame64 (act p : float) (s : B64.Env) (r : result Z) (s1 : B64.Env) :
  B64.trade_pure act p s = (r, s1) ->
  B64.df s1 = B64.df s /\ B64.lookback s1 = B64.lookback s /\
  B64.n_steps s1 = B64.n_steps s /\ B64.current_step s1 = B64.current_step s /\
  B64.initial_cash s1 = B64.initial_cash s /\
  B64.trade_penalty_factor s1 = B64.trade_penalty_factor s.
Proof.
  unfold B64.trade_pure.
  destruct (0 <? act)%float.
  - destruct (B64.max_buy (B64.cash s) p) as [mb|e];
      [|intro H; inversion H; subst; repeat split].
    destruct (B64.shares_bought act mb) as [n|e];
      [|intro H; inversion H; subst; repeat split].
    destruct (1 <=? n); [|intro H; inversion H; subst; repeat split].
    destruct (B64.int_times n p) as [cost|e]; intro H; inversion H; subst; repeat split.
  - destruct (act <? 0)%float; [|intro H; inversion H; subst; repeat split].
    destruct (B64.shares_sold act (B64.stock_owned s)) as [n|e];
      [|intro H; inversion H; subst; repeat split].
    destruct (1 <=? n); [|intro H; inversion H; subst; repeat split].
    destruct (B64.int_times n p) as [gain|e]; intro H; inversion H; subst; repeat split.
Qed.

Lemma step_locals_run64 (a : float) (s : B64.Env) :
  B64.step_locals a s = B64.step_pure a s.
Proof.
  unfold B64.step_locals, B64.step_pure.
  unfold B64.bind at 1. unfold B64.self_ at 1.
  unfold B64.bind at 1. unfold B64.self_ at 1.
  unfold B64.bind at 1. unfold B64.lift at 1, B64.iloc.
  destruct (nth_error (B64.df s) (B64.current_step s)) as [row|]; [|reflexivity].
  unfold B64.bind at 1. unfold B64.self_ at 1.
  unfold B64.bind at 1. unfold B64.self_ at 1.
  unfold B64.bind at 1. unfold B64.lift at 1. unfold B64.int_times at 1.
  destruct (B64.float_of_int (B64.stock_owned s)) as [kf|e]; [|reflexivity].
  cbn [B64.and_then].
  unfold B64.bind at 1.
  rewrite (trade_run64 _ (B64.Close row) s).
  destruct (B64.trade_pure (B64.np_clip a (-1) 1) (B64.Close row) s) as [[t|e] s1];
    [|reflexivity].
  unfold B64.finish.
  unfold B64.bind at 1. unfold B64.self_ at 1.
  unfold B64.bind at 1. unfold B64.assign at 1.
  unfold B64.bind at 1. unfold B64.self_ at 1.
  unfold B64.bind at 1. unfold B64.self_ at 1.
  unfold B64.bind at 1. rewrite get_obs_run64.
  set (s2 := B64.set_current_step (B64.current_step s1 + 1) s1).
  destruct (B64.float_of_int (B64.stock_owned s2)) as [kf'|e] eqn:Ek; [|reflexivity].
  unfold B64.bind at 1.
  unfold B64.next_price_of.
  change (Z.of_nat (B64.n_steps s2) - 1 <=? Z.of_nat (B64.current_step s2))
    with (B64.is_done s2).
  destruct (B64.is_done s2) eqn:Ed; cbn [negb].
  - cbv [B64.bind B64.self_ B64.lift B64.ret B64.int_times].
    rewrite Ek. cbn [B64.and_then].
    destruct (B64.float_of_int t) as [tf|e]; [|reflexivity].
    unfold B64.locals_after. rewrite Ed. reflexivity.
  - cbv [B64.bind B64.self_ B64.lift B64.ret B64.int_times B64.iloc].
    destruct (nth_error (B64.df s2) (B64.current_step s2)) as [row'|]; [|reflexivity].
    cbn [B64.and_then]. rewrite Ek. cbn [B64.and_then].
    destruct (B64.float_of_int t) as [tf|e]; [|reflexivity].
    unfold B64.locals_after. rewrite Ed. reflexivity.
Qed.

(** ** The trade of a step *)

Lemma trade_pure_cases64 (act p : float) (s : B64.Env) (t : Z) (s1 : B64.Env) :
  B64.trade_pure act p s = (OK t, s1) -> B64.trade_case act p s t s1.
Proof.
  unfold B64.trade_pure.
  destruct (0 <? act)%float eqn:Epos.
  - destruct (B64.max_buy (B64.cash s) p) as [mb|e] eqn:Emb; [|discriminate].
    destruct (B64.shares_bought act mb) as [n|e] eqn:En; [|discriminate].
    destruct (1 <=? n) eqn:E1.
    + destruct (B64.int_times n p) as [cost|e] eqn:Ec; [|discriminate].
      intro H; inversion H; subst.
      apply (B64.trade_buy _ _ _ mb _ cost); try assumption. lia.
    + intro H; inversion H; subst.
      apply (B64.trade_buy_below _ _ _ mb n); try assumption. lia.
  - destruct (act <? 0)%float eqn:Eneg.
    + destruct (B64.shares_sold act (B64.stock_owned s)) as [n|e] eqn:En; [|discriminate].
      destruct (1 <=? n) eqn:E1.
      * destruct (B64.int_times n p) as [gain|e] eqn:Ec; [|discriminate].
        intro H; inversion H; subst.
        apply (B64.trade_sell _ _ _ _ gain); try assumption. lia.
      * intro H; inversion H; subst.
        apply (B64.trade_sell_below _ _ _ n); try assumption. lia.
    + intro H; inversion H; subst. apply B64.trade_hold; assumption.
Qed.

Lemma trade_case_run64 (act p : float) (s : B64.Env) (t : Z) (s1 : B64.Env) :
  B64.trade_case act p s t s1 -> B64.trade_pure act p s = (OK t, s1).
Proof.
  unfold B64.trade_pure.
  intros [Hp Hn|mb n Hp Hmb Hn Hlt|mb n cost Hp Hmb Hn Hle Hc
          |n Hp Hng Hn Hlt|n gain Hp Hng Hn Hle Hc].
  - rewrite Hp, Hn. reflexivity.
  - rewrite Hp, Hmb, Hn. destruct (1 <=? n) eqn:E; [lia | reflexivity].
  - rewrite Hp, Hmb, Hn. destruct (1 <=? n) eqn:E; [|lia]. rewrite Hc. reflexivity.
  - rewrite Hp, Hng, Hn. destruct (1 <=? n) eqn:E; [lia | reflexivity].
  - rewrite Hp, Hng, Hn. destruct (1 <=? n) eqn:E; [|lia]. rewrite Hc. reflexivity.
Qed.

Lemma trade_pure_raise64 (act p : float) (s : B64.Env) (e : exn) (s1 : B64.Env) :
  B64.trade_pure act p s = (Raise e, s1) -> s1 = s.
Proof.
  unfold B64.trade_pure.
  destruct (0 <? act)%float.
  - destruct (B64.max_buy (B64.cash s) p) as [mb|e1]; [|intro H; inversion H; reflexivity].
    destruct (B64.shares_bought act mb) as [n|e1]; [|intro H; inversion H; reflexivity].
    destruct (1 <=? n); [|discriminate].
    destruct (B64.int_times n p); [discriminate | intro H; inversion H; reflexivity].
  - destruct (act <? 0)%float; [|discriminate].
    destruct (B64.shares_sold act (B64.stock_owned s)) as [n|e1];
      [|intro H; inversion H; reflexivity].
    destruct (1 <=? n); [|discriminate].
    destruct (B64.int_times n p); [discriminate | intro H; inversion H; reflexivity].
Qed.

(** ** Which errors the arithmetic raises *)

Lemma float_of_int_raise (k : Z) (e : exn) :
  B64.float_of_int k = Raise e -> e = OverflowError.
Proof.
  unfold B64.float_of_int.
  destruct (is_infinity (B64.round64 k 0 false)); [|discriminate].
  intro H; inversion H; reflexivity.
Qed.

Lemma py_int_raise (x : float) (e : exn) :
  B64.py_int x = Raise e -> e = ValueError \/ e = OverflowError.
Proof.
  unfold B64.py_int.
  destruct (Prim2SF x); try discriminate; intro H; inversion H; auto.
Qed.

Lemma int_times_raise (k : Z) (x : float) (e : exn) :
  B64.int_times k x = Raise e -> e = OverflowError.
Proof.
  unfold B64.int_times.
  destruct (B64.float_of_int k) eqn:E; [discriminate|].
  cbn [B64.and_then]. intro H; inversion H; subst.
  apply (float_of_int_raise k). exact E.
Qed.

Lemma py_floordiv_raise (c p : float) (e : exn) :
  B64.py_floordiv c p = Raise e -> e = ZeroDivisionError /\ (p =? 0)%float = true.
Proof.
  unfold B64.py_floordiv.
  destruct (p =? 0)%float; [intro H; inversion H; split; reflexivity|].
  match goal with |- context [if ?b then _ else _] => destruct b end; discriminate.
Qed.



Lemma shares_bought_raise (act : float) (mb : Z) (e : exn) :
  B64.shares_bought act mb = Raise e -> e = ValueError \/ e = OverflowError.
Proof.
  unfold B64.shares_bought.
  destruct (B64.float_of_int mb) as [m|e1] eqn:E; cbn [B64.and_then].
  - apply py_int_raise.
  - intro H; inversion H; subst. right. apply (float_of_int_raise mb). exact E.
Qed.

Lemma shares_sold_raise (act : float) (k : Z) (e : exn) :
  B64.shares_sold act k = Raise e -> e = ValueError \/ e = OverflowError.
Proof.
  unfold B64.shares_sold.
  destruct (B64.float_of_int k) as [m|e1] eqn:E; cbn [B64.and_then].
  - apply py_int_raise.
  - intro H; inversion H; subst. right. apply (float_of_int_raise k). exact E.
Qed.


Lemma trade_pure_not_index (act p : float) (s : B64.Env) (s1 : B64.Env) :
  B64.trade_pure act p s <> (Raise IndexError, s1).
Proof.
  unfold B64.trade_pure.
  destruct (0 <? act)%float.
  - destruct (B64.max_buy (B64.cash s) p) as [mb|e1] eqn:Emb.
    + destruct (B64.shares_bought act mb) as [n|e1] eqn:En.
      * destruct (1 <=? n); [|discriminate].
        destruct (B64.int_times n p) as [c|e1] eqn:Ec; [discriminate|].
        intro H; inversion H; subst.
        pose proof (int_times_raise _ _ _ Ec). discriminate.
      * intro H; inversion H; subst.
        destruct (shares_bought_raise _ _ _ En); discriminate.
    + intro H; inversion H; subst. unfold B64.max_buy in Emb.
      destruct (B64.py_floordiv _ p) as [d|e] eqn:E; cbn [B64.and_then] in Emb.
      * destruct (py_int_raise _ _ Emb); discriminate.
      * inversion Emb; subst. destruct (py_floordiv_raise _ _ _ E). discriminate.
  - destruct (act <? 0)%float; [|discriminate].
    destruct (B64.shares_sold act (B64.stock_owned s)) as [n|e1] eqn:En.
    + destruct (1 <=? n); [|discriminate].
      destruct (B64.int_times n p) as [c|e1] eqn:Ec; [discriminate|].
      intro H; inversion H; subst.
      pose proof (int_times_raise _ _ _ Ec). discriminate.
    + intro H; inversion H; subst.
      destruct (shares_sold_raise _ _ _ En); discriminate.
Qed.

(** ** A step that returns, a step that raises *)

Lemma next_price_total64 (row : B64.Bar) (s2 : B64.Env) :
  B64.wf s2 -> exists np, B64.next_price_of row s2 = OK np.
Proof.
  intro Hwf. unfold B64.next_price_of.
  destruct (B64.is_done s2) eqn:Ed; [eexists; reflexivity|].
  unfold B64.iloc.
  destruct (nth_error (B64.df s2) (B64.current_step s2)) as [row'|] eqn:E.
  - eexists; reflexivity.
  - exfalso. apply nth_error_None in E.
    unfold B64.is_done in Ed. apply Z.leb_gt in Ed.
    unfold B64.wf in Hwf. lia.
Qed.

Lemma step_ok_inv64 (a : float) (s : B64.Env) (l : B64.Locals) (s' : B64.Env) :
  B64.step_locals a s = (OK l, s') ->
  exists row kf t s1 kf' np tf,
    nth_error (B64.df s) (B64.current_step s) = Some row /\
    B64.float_of_int (B64.stock_owned s) = OK kf /\
    B64.trade_case (B64.np_clip a (-1) 1) (B64.Close row) s t s1 /\
    s' = B64.set_current_step (B64.current_step s + 1)%nat s1 /\
    B64.float_of_int (B64.stock_owned s') = OK kf' /\
    B64.next_price_of row s' = OK np /\
    B64.float_of_int t = OK tf /\
    l = B64.locals_after row (B64.np_clip a (-1) 1)
          (B64.cash s + kf * B64.Close row)%float t s' kf' np tf.
Proof.
  rewrite step_locals_run64. unfold B64.step_pure.
  destruct (nth_error (B64.df s) (B64.current_step s)) as [row|] eqn:Hrow; [|discriminate].
  destruct (B64.float_of_int (B64.stock_owned s)) as [kf|e] eqn:Hkf; [|discriminate].
  destruct (B64.trade_pure (B64.np_clip a (-1) 1) (B64.Close row) s)
    as [[t|e] s1] eqn:Ht; [|discriminate].
  destruct (trade_pure_frame64 _ _ _ _ _ Ht) as (_ & _ & _ & Hcs & _).
  apply trade_pure_cases64 in Ht.
  unfold B64.finish. rewrite Hcs.
  set (s2 := B64.set_current_step (B64.current_step s + 1) s1).
  destruct (B64.float_of_int (B64.stock_owned s2)) as [kf'|e] eqn:Hkf'; [|discriminate].
  destruct (B64.next_price_of row s2) as [np|e] eqn:Hnp; [|discriminate].
  destruct (B64.float_of_int t) as [tf|e] eqn:Htf; [|discriminate].
  intro H; inversion H; subst l s'.
  exists row, kf, t, s1, kf', np, tf. repeat split; assumption.
Qed.

Lemma trade_case_frame64 (act p : float) (s : B64.Env) (t : Z) (s1 : B64.Env) :
  B64.trade_case act p s t s1 ->
  B64.df s1 = B64.df s /\ B64.lookback s1 = B64.lookback s /\
  B64.n_steps s1 = B64.n_steps s /\ B64.current_step s1 = B64.current_step s /\
  B64.initial_cash s1 = B64.initial_cash s /\
  B64.trade_penalty_factor s1 = B64.trade_penalty_factor s.
Proof.
  intro H. apply trade_case_run64 in H. apply (trade_pure_frame64 _ _ _ _ _ H).
Qed.

(** A step past the last bar. *)
Lemma step_past_end64 (a : float) (s : B64.Env) :
  (length (B64.df s) <= B64.current_step s)%nat ->
  B64.step_locals a s = (Raise IndexError, s).
Proof.
  intro H. rewrite step_locals_run64. unfold B64.step_pure.
  apply nth_error_None in H. rewrite H. reflexivity.
Qed.

(** A step whose trade does not change the portfolio returns. *)
Lemma step_no_trade64 (a : float) (s : B64.Env) (row : B64.Bar) (kf : float) :
  B64.wf s ->
  nth_error (B64.df s) (B64.current_step s) = Some row ->
  B64.float_of_int (B64.stock_owned s) = OK kf ->
  B64.trade_case (B64.np_clip a (-1) 1) (B64.Close row) s 0 s ->
  exists np,
    B64.next_price_of row (B64.set_current_step (B64.current_step s + 1)%nat s) = OK np /\
    B64.step_locals a s =
    (OK (B64.locals_after row (B64.np_clip a (-1) 1)
           (B64.cash s + kf * B64.Close row)%float 0
           (B64.set_current_step (B64.current_step s + 1)%nat s) kf np 0),
     B64.set_current_step (B64.current_step s + 1)%nat s).
Proof.
  intros Hwf Hrow Hkf Hc.
  destruct (next_price_total64 row (B64.set_current_step (B64.current_step s + 1)%nat s))
    as [np Hnp]; [exact Hwf|].
  exists np. split; [exact Hnp|].
  rewrite step_locals_run64. unfold B64.step_pure. rewrite Hrow, Hkf.
  rewrite (trade_case_run64 _ _ _ _ _ Hc).
  unfold B64.finish.
  change (B64.stock_owned (B64.set_current_step (B64.current_step s + 1) s))
    with (B64.stock_owned s).
  rewrite Hkf, Hnp. reflexivity.
Qed.

Lemma step_raise_inv64 (a : float) (s : B64.Env) (e : exn) (s' : B64.Env) :
  B64.wf s ->
  B64.step_locals a s = (Raise e, s') ->
  (nth_error (B64.df s) (B64.current_step s) = None /\ e = IndexError /\ s' = s) \/
  (exists row, nth_error (B64.df s) (B64.current_step s) = Some row /\
     ((B64.float_of_int (B64.stock_owned s) = Raise e /\ e = OverflowError /\ s' = s) \/
      (exists kf, B64.float_of_int (B64.stock_owned s) = OK kf /\
         B64.trade_pure (B64.np_clip a (-1) 1) (B64.Close row) s = (Raise e, s) /\
         s' = s) \/
      (exists kf t s1, B64.float_of_int (B64.stock_owned s) = OK kf /\
         B64.trade_case (B64.np_clip a (-1) 1) (B64.Close row) s t s1 /\
         s' = B64.set_current_step (B64.current_step s + 1)%nat s1 /\
         e = OverflowError))).
Proof.
  intro Hwf. rewrite step_locals_run64. unfold B64.step_pure.
  destruct (nth_error (B64.df s) (B64.current_step s)) as [row|] eqn:Hrow.
  2:{ intro H; inversion H; subst. left. repeat split. }
  intro H. right. exists row. split; [reflexivity|].
  destruct (B64.float_of_int (B64.stock_owned s)) as [kf|e1] eqn:Hkf.
  2:{ inversion H; subst. left.
      split; [reflexivity|]. split; [|reflexivity].
      apply (float_of_int_raise _ _ Hkf). }
  destruct (B64.trade_pure (B64.np_clip a (-1) 1) (B64.Close row) s)
    as [[t|e1] s1] eqn:Ht.
  2:{ inversion H; subst.
      pose proof (trade_pure_raise64 _ _ _ _ _ Ht) as Hs. subst s'.
      right; left. exists kf. repeat split. }
  destruct (trade_pure_frame64 _ _ _ _ _ Ht) as (Hdf & _ & Hn & Hcs & _).
  apply trade_pure_cases64 in Ht.
  unfold B64.finish in H. rewrite Hcs in H.
  set (s2 := B64.set_current_step (B64.current_step s + 1) s1) in *.
  assert (Hwf2 : B64.wf s2).
  { unfold B64.wf in *. subst s2. cbn. congruence. }
  right; right. exists kf, t, s1.
  destruct (B64.float_of_int (B64.stock_owned s2)) as [kf'|e1] eqn:Hkf'.
  2:{ inversion H; subst. repeat split; try assumption.
      apply (float_of_int_raise _ _ Hkf'). }
  destruct (next_price_total64 row s2 Hwf2) as [np Hnp]. rewrite Hnp in H.
  destruct (B64.float_of_int t) as [tf|e1] eqn:Htf; [discriminate|].
  inversion H; subst. repeat split; try assumption.
  apply (float_of_int_raise _ _ Htf).
Qed.

(** ** The environment never changes its table or its settings *)

Lemma step_config64 (a : float) (s : B64.Env) :
  B64.df (snd (B64.step a s)) = B64.df s /\
  B64.n_steps (snd (B64.step a s)) = B64.n_steps s /\
  B64.trade_penalty_factor (snd (B64.step a s)) = B64.trade_penalty_factor s.
Proof.
  unfold B64.step, B64.bind. rewrite step_locals_run64. unfold B64.step_pure.
  destruct (nth_error (B64.df s) (B64.current_step s)) as [row|]; [|repeat split].
  destruct (B64.float_of_int (B64.stock_owned s)) as [kf|e]; [|repeat split].
  destruct (B64.trade_pure (B64.np_clip a (-1) 1) (B64.Close row) s)
    as [[t|e] s1] eqn:Ht;
    destruct (trade_pure_frame64 _ _ _ _ _ Ht) as (Hdf & _ & Hn & _ & _ & Hf);
    [|cbn [snd]; repeat split; assumption].
  unfold B64.finish.
  destruct (B64.float_of_int _) as [kf'|e]; [|cbn; repeat split; assumption].
  destruct (B64.next_price_of _ _) as [np|e]; [|cbn; repeat split; assumption].
  destruct (B64.float_of_int t) as [tf|e]; cbn; repeat split; assumption.
Qed.

Lemma reachable_config64 (s0 s : B64.Env) :
  B64.reachable s0 s ->
  B64.df s = B64.df s0 /\ B64.n_steps s = B64.n_steps s0 /\
  B64.trade_penalty_factor s = B64.trade_penalty_factor s0.
Proof.
  intro H. induction H as [|s a H IH].
  - rewrite reset_run64. repeat split.
  - destruct IH as (A & B & C). destruct (step_config64 a s) as (A' & B' & C').
    repeat split; congruence.
Qed.

(** ** A buy can leave the cash below zero *)

(** C2 (code bug): the buy sizes the purchase with [self.cash // price],
    whose binary64 value can exceed the true quotient.  On a table of four
    bars with close 4.1e-15 (positive), the first step after [reset] with
    action 1 computes [max_buy = 2439024390243902464], above the
    2439024390243902226 shares the cash pays for; their cost rounds to
    10000.000000000002 and the call leaves [cash = -2^-39], about
    -1.8e-12: a reachable state with negative cash. *)
Theorem C2_cash_goes_negative :
  Forall (fun b => (0 <? B64.Close b)%float = true) (B64.df B64.tiny4) /\
  B64.reachable B64.tiny4 (snd (B64.step 1 (snd (B64.reset B64.tiny4)))) /\
  B64.cash (snd (B64.reset B64.tiny4)) = 10000%float /\
  B64.max_buy 10000 0x1.276fa6946b83dp-48 = OK 2439024390243902464 /\
  B64.int_times 2439024390243902464 0x1.276fa6946b83dp-48
    = OK 0x1.3880000000001p+13%float /\
  B64.outcome (B64.step 1 (snd (B64.reset B64.tiny4)))
    = OK ((-24390243902439024)%float, false, (-0x1p-39)%float, 2439024390243902464) /\
  (B64.cash (snd (B64.step 1 (snd (B64.reset B64.tiny4)))) <? 0)%float = true.
Proof.
  split; [repeat constructor|].
  split; [apply B64.reach_step; apply B64.reach_reset|].
  repeat split; vm_compute; reflexivity.
Qed.

(** ** Trades below one share *)

(** C7 (counterexample): the threshold is the constant 1.  With 10000 in
    cash and a close of 100, the action 0.04 implies 4 shares, and the 4
    shares are bought. *)
Lemma C7_counterexample :
  B64.max_buy 10000 100 = OK 100 /\
  B64.shares_bought (B64.np_clip 0x1.47ae147ae147bp-5 (-1) 1) 100 = OK 4 /\
  B64.outcome (B64.step 0x1.47ae147ae147bp-5 (snd (B64.reset B64.flat8)))
    = OK ((-0x1.47ae147ae147bp-5)%float, false, 9600%float, 4).
Proof. repeat split; vm_compute; reflexivity. Qed.

(** C7 (amended): on a bar, with holdings that convert to a float, a step
    whose clipped action is zero or NaN, or whose size as the code computes
    it in binary64 is below 1, returns and leaves cash and holdings as they
    were, with [shares_traded = 0]; and a step that returns with a computed
    size of 1 or more has traded exactly that many shares. *)
Theorem C7_no_trade_below_one (a : float) (s : B64.Env) (row : B64.Bar) (kf : float) :
  let act := B64.np_clip a (-1) 1 in
  B64.wf s ->
  nth_error (B64.df s) (B64.current_step s) = Some row ->
  B64.float_of_int (B64.stock_owned s) = OK kf ->
  (((act =? 0)%float = true \/
    PrimFloat.is_nan act = true \/
    (exists mb n, (0 <? act)%float = true /\
       B64.max_buy (B64.cash s) (B64.Close row) = OK mb /\
       B64.shares_bought act mb = OK n /\ n < 1) \/
    (exists n, (act <? 0)%float = true /\
       B64.shares_sold act (B64.stock_owned s) = OK n /\ n < 1)) ->
   exists l s', B64.step_locals a s = (OK l, s') /\
     B64.cash s' = B64.cash s /\ B64.stock_owned s' = B64.stock_owned s /\
     B64.shares_traded l = 0) /\
  (forall l s', B64.step_locals a s = (OK l, s') ->
     (forall mb n, (0 <? act)%float = true ->
        B64.max_buy (B64.cash s) (B64.Close row) = OK mb ->
        B64.shares_bought act mb = OK n -> 1 <= n ->
        B64.shares_traded l = n /\ B64.stock_owned s' = B64.stock_owned s + n) /\
     (forall n, (act <? 0)%float = true ->
        B64.shares_sold act (B64.stock_owned s) = OK n -> 1 <= n ->
        B64.shares_traded l = n /\ B64.stock_owned s' = B64.stock_owned s - n)).
Proof.
  intros act Hwf Hrow Hkf. split.
  - intro Hcond.
    assert (Hc : B64.trade_case act (B64.Close row) s 0 s).
    { destruct Hcond as [H|[H|[(mb & n & Hp & Hmb & Hn & Hlt)|(n & Hng & Hn & Hlt)]]].
      - destruct (eqb_not_ltb _ _ H) as [H1 H2]. apply B64.trade_hold; assumption.
      - destruct (is_nan_not_ltb act 0 H) as [H1 H2]. apply B64.trade_hold; assumption.
      - apply (B64.trade_buy_below _ _ _ mb n); assumption.
      - apply (B64.trade_sell_below _ _ _ n); try assumption.
        apply ltb_asym. exact Hng. }
    destruct (step_no_trade64 a s row kf Hwf Hrow Hkf Hc) as (np & _ & Hrun).
    eexists; eexists. split; [exact Hrun|]. repeat split.
  - intros l s' Hrun.
    destruct (step_ok_inv64 _ _ _ _ Hrun)
      as (row0 & kf0 & t & s1 & kf' & np & tf & Hrow0 & _ & Hc & Hs & _ & _ & _ & Hl).
    assert (row0 = row) by congruence. subst row0.
    fold act in Hc, Hl.
    assert (Ht : B64.shares_traded l = t) by (subst l; reflexivity).
    assert (Hk : B64.stock_owned s' = B64.stock_owned s1) by (subst s'; reflexivity).
    rewrite Ht, Hk. clear Hl Hs Ht Hk Hrun.
    split.
    + intros mb n Hp Hmb Hn Hle.
      destruct Hc as [Hp' _|mb' n' _ Hmb' Hn' Hlt|mb' n' cost _ Hmb' Hn' _ _
                      |n' Hp' _ _ _|n' gain Hp' _ _ _ _]; try congruence.
      * assert (mb' = mb) by congruence. subst mb'.
        assert (n' = n) by congruence. lia.
      * assert (mb' = mb) by congruence. subst mb'.
        assert (n' = n) by congruence. subst n'. split; reflexivity.
    + intros n Hng Hn Hle.
      pose proof (ltb_asym _ _ Hng) as Hp.
      destruct Hc as [_ Hng'|mb' n' Hp' _ _ _|mb' n' cost Hp' _ _ _ _
                      |n' _ _ Hn' Hlt|n' gain _ _ Hn' _ _]; try congruence.
      * assert (n' = n) by congruence. lia.
      * assert (n' = n) by congruence. subst n'. split; reflexivity.
Qed.

(** The instance with 10000 in cash, a close of 100 and the action 0.005:
    the size is [int(0.005 * 100) = 0]. *)
Lemma C7_no_trade_below_one_witness :
  B64.wf (snd (B64.reset B64.flat8)) /\
  nth_error (B64.df (snd (B64.reset B64.flat8)))
            (B64.current_step (snd (B64.reset B64.flat8))) = Some (B64.bar_at 100) /\
  B64.float_of_int (B64.stock_owned (snd (B64.reset B64.flat8))) = OK 0%float /\
  (0 <? B64.np_clip 0x1.47ae147ae147bp-8 (-1) 1)%float = true /\
  B64.max_buy (B64.cash (snd (B64.reset B64.flat8))) 100 = OK 100 /\
  B64.shares_bought (B64.np_clip 0x1.47ae147ae147bp-8 (-1) 1) 100 = OK 0 /\
  exists l s',
    B64.step_locals 0x1.47ae147ae147bp-8 (snd (B64.reset B64.flat8)) = (OK l, s') /\
    B64.cash s' = B64.cash (snd (B64.reset B64.flat8)) /\
    B64.stock_owned s' = B64.stock_owned (snd (B64.reset B64.flat8)) /\
    B64.shares_traded l = 0.
Proof.
  split; [reflexivity|]. split; [reflexivity|]. split; [reflexivity|].
  split; [reflexivity|]. split; [reflexivity|]. split; [reflexivity|].
  apply (C7_no_trade_below_one 0x1.47ae147ae147bp-8 (snd (B64.reset B64.flat8))
           (B64.bar_at 100) 0%float);
    [reflexivity | reflexivity | reflexivity |].
  right; right; left. exists 100, 0.
  split; [reflexivity|]. split; [reflexivity|]. split; [reflexivity | lia].
Defined.

(** ** Stepping after the episode has ended *)

(** C8 (amended): [step] checks no state.  After a step that returned
    [done] the cursor is on the last bar or past it.  On the last bar the
    next call runs like any other: it never raises IndexError, a hold
    returns, and a call that returns gives [done] again, leaves the cursor
    past the last bar and has traded at the last bar's close (the portfolio
    it leaves is that of one of the five outcomes of a trade there).  Past
    the last bar every call raises IndexError and changes nothing. *)
Theorem C8_step_after_done (s0 s : B64.Env) (a0 a : float) (l0 : B64.Locals) :
  B64.wf s0 ->
  B64.step_locals a0 s0 = (OK l0, s) ->
  B64.done l0 = true ->
  ((B64.current_step s + 1 = length (B64.df s))%nat \/
   B64.current_step s = length (B64.df s)) /\
  ((B64.current_step s + 1 = length (B64.df s))%nat ->
   exists row,
     nth_error (B64.df s) (B64.current_step s) = Some row /\
     (forall e s', B64.step_locals a s = (Raise e, s') -> e <> IndexError) /\
     (forall l s', B64.step_locals a s = (OK l, s') ->
        B64.done l = true /\
        B64.current_step s' = length (B64.df s) /\
        B64.price l = B64.Close row /\
        B64.next_price l = B64.Close row /\
        exists s1,
          B64.trade_case (B64.np_clip a (-1) 1) (B64.Close row) s
                         (B64.shares_traded l) s1 /\
          B64.cash s' = B64.cash s1 /\ B64.stock_owned s' = B64.stock_owned s1) /\
     ((0 <? B64.np_clip a (-1) 1)%float = false ->
      (B64.np_clip a (-1) 1 <? 0)%float = false ->
      exists l s', B64.step_locals a s = (OK l, s') /\
        B64.cash s' = B64.cash s /\ B64.stock_owned s' = B64.stock_owned s)) /\
  (B64.current_step s = length (B64.df s) ->
   B64.step_locals a s = (Raise IndexError, s)).
Proof.
  intros Hwf0 Hrun0 Hd0.
  destruct (step_ok_inv64 _ _ _ _ Hrun0)
    as (row0 & kf0 & t0 & s1 & kf & np0 & tf0 & Hrow0 & _ & Hc0 & Hs & Hkf & _ & _ & Hl0).
  destruct (trade_case_frame64 _ _ _ _ _ Hc0) as (Hdf1 & _ & Hn1 & _ & _ & _).
  assert (Hdf : B64.df s = B64.df s0) by (subst s; exact Hdf1).
  assert (Hn : B64.n_steps s = B64.n_steps s0) by (subst s; exact Hn1).
  assert (Hcs : B64.current_step s = (B64.current_step s0 + 1)%nat) by (subst s; reflexivity).
  assert (Hwf : B64.wf s) by (unfold B64.wf in *; congruence).
  assert (Hlt0 : (B64.current_step s0 < length (B64.df s0))%nat).
  { apply nth_error_Some. rewrite Hrow0. discriminate. }
  assert (Hdone : B64.is_done s = true) by (rewrite Hl0 in Hd0; exact Hd0).
  unfold B64.is_done in Hdone. apply Z.leb_le in Hdone.
  assert (Hlen : length (B64.df s) = length (B64.df s0)) by (rewrite Hdf; reflexivity).
  pose proof Hwf as Hwfs. unfold B64.wf in Hwfs.
  split; [lia|]. split.
  - intro Hlast.
    destruct (nth_error (B64.df s) (B64.current_step s)) as [row|] eqn:Hrow.
    2:{ apply nth_error_None in Hrow. lia. }
    exists row. split; [reflexivity|]. split; [|split].
    + intros e s' Hr.
      destruct (step_raise_inv64 _ _ _ _ Hwf Hr)
        as [(Hnone & _)|(row1 & _ & [(_ & He & _)|[(kf1 & _ & Ht & _)|(kf1 & t & s2 & _ & _ & _ & He)]])].
      * congruence.
      * subst e. discriminate.
      * intro He. subst e. apply (trade_pure_not_index _ _ _ _ Ht).
      * subst e. discriminate.
    + intros l s' Hr.
      destruct (step_ok_inv64 _ _ _ _ Hr)
        as (row1 & kf1 & t & s2 & kf' & np & tf & Hrow1 & _ & Hc & Hs' & _ & Hnp & _ & Hl).
      assert (row1 = row) by congruence. subst row1.
      destruct (trade_case_frame64 _ _ _ _ _ Hc) as (_ & _ & Hn2 & _ & _ & _).
      assert (Hd' : B64.is_done s' = true).
      { unfold B64.is_done. subst s'. cbn. apply Z.leb_le. lia. }
      unfold B64.next_price_of in Hnp. rewrite Hd' in Hnp. inversion Hnp; subst np.
      subst l. unfold B64.locals_after; cbn.
      split; [exact Hd'|]. split; [subst s'; cbn; lia|].
      split; [reflexivity|]. split; [reflexivity|].
      exists s2. split; [exact Hc|]. subst s'. split; reflexivity.
    + intros Hp Hng.
      destruct (step_no_trade64 a s row kf Hwf Hrow Hkf (B64.trade_hold _ _ _ Hp Hng))
        as (np & _ & Hr).
      eexists; eexists. split; [exact Hr|]. split; reflexivity.
  - intro Hpast. apply step_past_end64. lia.
Qed.

(** The instance on the four-bar table: the second hold returns [done]
    with the cursor on the last bar, where action 1 is then stepped. *)
Lemma C8_step_after_done_witness :
  exists (l0 : B64.Locals) (s : B64.Env),
    B64.wf B64.rising4_active /\
    B64.step_locals 0 B64.rising4_active = (OK l0, s) /\
    B64.done l0 = true /\
    ((B64.current_step s + 1 = length (B64.df s))%nat \/
     B64.current_step s = length (B64.df s)) /\
    ((B64.current_step s + 1 = length (B64.df s))%nat ->
     exists row,
       nth_error (B64.df s) (B64.current_step s) = Some row /\
       (forall e s', B64.step_locals 1 s = (Raise e, s') -> e <> IndexError) /\
       (forall l s', B64.step_locals 1 s = (OK l, s') ->
          B64.done l = true /\
          B64.current_step s' = length (B64.df s) /\
          B64.price l = B64.Close row /\
          B64.next_price l = B64.Close row /\
          exists s1,
            B64.trade_case (B64.np_clip 1 (-1) 1) (B64.Close row) s
                           (B64.shares_traded l) s1 /\
            B64.cash s' = B64.cash s1 /\ B64.stock_owned s' = B64.stock_owned s1) /\
       ((0 <? B64.np_clip 1 (-1) 1)%float = false ->
        (B64.np_clip 1 (-1) 1 <? 0)%float = false ->
        exists l s', B64.step_locals 1 s = (OK l, s') /\
          B64.cash s' = B64.cash s /\ B64.stock_owned s' = B64.stock_owned s)) /\
    (B64.current_step s = length (B64.df s) ->
     B64.step_locals 1 s = (Raise IndexError, s)).
Proof.
  eexists; eexists.
  split; [reflexivity|].
  split; [vm_compute; reflexivity|].
  split; [reflexivity|].
  eapply (C8_step_after_done B64.rising4_active _ 0 1);
    [reflexivity | vm_compute; reflexivity | reflexivity].
Defined.

(** The same calls, run: the step on the last bar buys 250 shares at 40,
    and the one after it raises IndexError. *)
Example step_after_done64 :
  B64.outcome (B64.step 1 B64.rising4_end)
    = OK ((-2.5)%float, true, 0%float, 250) /\
  B64.current_step (snd (B64.step 1 B64.rising4_end)) = 4%nat /\
  B64.outcome (B64.step 1 (snd (B64.step 1 B64.rising4_end))) = Raise IndexError.
Proof. repeat split; vm_compute; reflexivity. Qed.

(** ** The action *)

(** C9 (amended): the action enters a step only through
    [np.clip(action, -1, 1)].  An action is NaN, below -1, above 1 or in
    [-1, 1]: NaN stays NaN, a value below -1 (also -inf) becomes -1, a
    value above 1 (also +inf) becomes 1, a value in [-1, 1] is kept.  The
    step with an action is the step with its clipped value, result, error
    and state alike, and the trade of a step that returns is the one the
    clipped value decides. *)
Theorem C9_effective_action (a : float) (s : B64.Env) :
  (PrimFloat.is_nan a = true \/ (a <? -1)%float = true \/ (1 <? a)%float = true \/
   ((-1 <=? a)%float = true /\ (a <=? 1)%float = true)) /\
  (PrimFloat.is_nan a = true -> B64.np_clip a (-1) 1 = nan) /\
  ((a <? -1)%float = true -> B64.np_clip a (-1) 1 = (-1)%float) /\
  ((1 <? a)%float = true -> B64.np_clip a (-1) 1 = 1%float) /\
  ((-1 <=? a)%float = true -> (a <=? 1)%float = true -> B64.np_clip a (-1) 1 = a) /\
  B64.step_locals a s = B64.step_locals (B64.np_clip a (-1) 1) s /\
  (forall l s', B64.step_locals a s = (OK l, s') ->
     B64.action l = B64.np_clip a (-1) 1 /\
     exists row s1,
       nth_error (B64.df s) (B64.current_step s) = Some row /\
       B64.trade_case (B64.np_clip a (-1) 1) (B64.Close row) s
                      (B64.shares_traded l) s1 /\
       B64.cash s' = B64.cash s1 /\ B64.stock_owned s' = B64.stock_owned s1).
Proof.
  split; [apply action_cases|].
  split; [intro H; apply is_nan_eq in H; subst a; reflexivity|].
  split; [apply np_clip_below|].
  split; [apply np_clip_above|].
  split; [apply np_clip_inside|].
  split.
  - unfold B64.step_locals. rewrite np_clip_idem. reflexivity.
  - intros l s' Hr.
    destruct (step_ok_inv64 _ _ _ _ Hr)
      as (row & kf & t & s1 & kf' & np & tf & Hrow & _ & Hc & Hs & _ & _ & _ & Hl).
    subst l. cbn. split; [reflexivity|].
    exists row, s1. split; [exact Hrow|]. split; [exact Hc|].
    subst s'. split; reflexivity.
Qed.

(** The instance with the finite action 5, clipped to 1: all the cash is
    spent, as with action 1. *)
Lemma C9_effective_action_witness :
  (1 <? 5)%float = true /\
  B64.np_clip 5 (-1) 1 = 1%float /\
  B64.step_locals 5 (snd (B64.reset B64.flat8))
    = B64.step_locals (B64.np_clip 5 (-1) 1) (snd (B64.reset B64.flat8)) /\
  B64.outcome (B64.step 5 (snd (B64.reset B64.flat8)))
    = OK ((-1)%float, false, 0%float, 100).
Proof.
  destruct (C9_effective_action 5 (snd (B64.reset B64.flat8)))
    as (_ & _ & _ & Habove & _ & Hsame & _).
  split; [reflexivity|].
  split; [apply Habove; reflexivity|].
  split; [exact Hsame|].
  vm_compute; reflexivity.
Defined.

(** Actions that are not finite, run: NaN holds, +inf buys all, -inf
    (nothing to sell) holds. *)
Example non_finite_actions64 :
  B64.outcome (B64.step nan (snd (B64.reset B64.flat8)))
    = OK (0%float, false, 10000%float, 0) /\
  B64.outcome (B64.step infinity (snd (B64.reset B64.flat8)))
    = OK ((-1)%float, false, 0%float, 100) /\
  B64.outcome (B64.step neg_infinity (snd (B64.reset B64.flat8)))
    = OK (0%float, false, 10000%float, 0).
Proof. repeat split; vm_compute; reflexivity. Qed.

(** ** A NaN action *)

(** C10 (counterexample): three holds on the four-bar table, the last of
    them made after [done], leave the cursor past the last bar; there the
    step with NaN raises IndexError and the cursor stays. *)
Lemma C10_counterexample :
  B64.reachable B64.rising4 B64.rising4_past /\
  B64.current_step B64.rising4_past = 4%nat /\
  length (B64.df B64.rising4_past) = 4%nat /\
  B64.step_locals nan B64.rising4_past = (Raise IndexError, B64.rising4_past).
Proof.
  split.
  - exact (B64.reach_step _ _ 0%float
             (B64.reach_step _ _ 0%float
                (B64.reach_step _ _ 0%float (B64.reach_reset B64.rising4)))).
  - repeat split; vm_compute; reflexivity.
Qed.

(** The same right after [reset] on a table no longer than the lookback. *)
Example nan_on_short_table64 :
  B64.step_locals nan (snd (B64.reset (B64.init [B64.bar_at 100; B64.bar_at 100] 2)))
    = (Raise IndexError, snd (B64.reset (B64.init [B64.bar_at 100; B64.bar_at 100] 2))).
Proof. vm_compute. reflexivity. Qed.

(** C10 (amended): in a state reached from the reset of an environment
    [__init__] built, by any calls of [step], the step with NaN

    - raises IndexError and changes nothing when the cursor is past the
      last bar;
    - raises OverflowError and changes nothing when the cursor is on a bar
      and the holdings are too large for a float;
    - otherwise returns and is a hold: the clipped action is NaN, neither
      above nor below zero, cash and holdings stay, no share is traded, the
      cursor advances by one and the reward is the new value less the old
      one, both taken with the unchanged portfolio. *)
Theorem C10_nan_is_hold (table : B64.DataFrame) (lb : nat) (s : B64.Env) :
  B64.reachable (B64.init table lb) s ->
  ((length (B64.df s) <= B64.current_step s)%nat ->
   B64.step_locals nan s = (Raise IndexError, s)) /\
  ((B64.current_step s < length (B64.df s))%nat ->
   B64.float_of_int (B64.stock_owned s) = Raise OverflowError ->
   B64.step_locals nan s = (Raise OverflowError, s)) /\
  ((B64.current_step s < length (B64.df s))%nat ->
   forall kf, B64.float_of_int (B64.stock_owned s) = OK kf ->
   exists l s',
     B64.step_locals nan s = (OK l, s') /\
     B64.action l = nan /\
     (0 <? B64.action l)%float = false /\ (B64.action l <? 0)%float = false /\
     B64.cash s' = B64.cash s /\ B64.stock_owned s' = B64.stock_owned s /\
     B64.shares_traded l = 0 /\
     B64.current_step s' = (B64.current_step s + 1)%nat /\
     B64.prev_total_asset l = (B64.cash s + kf * B64.price l)%float /\
     B64.new_total_asset l = (B64.cash s + kf * B64.next_price l)%float /\
     B64.reward l = (B64.new_total_asset l - B64.prev_total_asset l)%float).
Proof.
  intro Hreach.
  destruct (reachable_config64 _ _ Hreach) as (Hdf & Hn & Hf).
  cbn in Hdf, Hn, Hf.
  assert (Hwf : B64.wf s) by (unfold B64.wf; congruence).
  split; [apply step_past_end64|]. split.
  - intros Hlt Hk. rewrite step_locals_run64. unfold B64.step_pure.
    destruct (nth_error (B64.df s) (B64.current_step s)) as [row|] eqn:Hrow.
    + rewrite Hk. reflexivity.
    + apply nth_error_None in Hrow. lia.
  - intros Hlt kf Hk.
    destruct (nth_error (B64.df s) (B64.current_step s)) as [row|] eqn:Hrow.
    2:{ apply nth_error_None in Hrow. lia. }
    assert (Hc : B64.trade_case (B64.np_clip nan (-1) 1) (B64.Close row) s 0 s)
      by (apply B64.trade_hold; reflexivity).
    destruct (step_no_trade64 nan s row kf Hwf Hrow Hk Hc) as (np & _ & Hr).
    eexists; eexists. split; [exact Hr|].
    unfold B64.locals_after; cbn.
    split; [reflexivity|].
    split; [reflexivity|]. split; [reflexivity|].
    split; [reflexivity|]. split; [reflexivity|].
    split; [reflexivity|]. split; [reflexivity|].
    split; [reflexivity|]. split; [reflexivity|].
    rewrite Hf.
    change (0x1.47ae147ae147bp-7 * 0)%float with 0%float.
    apply sub_zero_r.
Qed.

(** The instance on the eight-bar table, right after [reset]. *)
Lemma C10_nan_is_hold_witness :
  B64.reachable (B64.init (repeat (B64.bar_at 100) 8) 2) (snd (B64.reset B64.flat8)) /\
  (B64.current_step (snd (B64.reset B64.flat8))
     < length (B64.df (snd (B64.reset B64.flat8))))%nat /\
  B64.float_of_int (B64.stock_owned (snd (B64.reset B64.flat8))) = OK 0%float /\
  exists l s',
    B64.step_locals nan (snd (B64.reset B64.flat8)) = (OK l, s') /\
    B64.action l = nan /\
    (0 <? B64.action l)%float = false /\ (B64.action l <? 0)%float = false /\
    B64.cash s' = B64.cash (snd (B64.reset B64.flat8)) /\
    B64.stock_owned s' = B64.stock_owned (snd (B64.reset B64.flat8)) /\
    B64.shares_traded l = 0 /\
    B64.current_step s' = (B64.current_step (snd (B64.reset B64.flat8)) + 1)%nat /\
    B64.prev_total_asset l
      = (B64.cash (snd (B64.reset B64.flat8)) + 0 * B64.price l)%float /\
    B64.new_total_asset l
      = (B64.cash (snd (B64.reset B64.flat8)) + 0 * B64.next_price l)%float /\
    B64.reward l = (B64.new_total_asset l - B64.prev_total_asset l)%float.
Proof.
  split; [apply B64.reach_reset|].
  split; [cbn; lia|].
  split; [reflexivity|].
  apply (C10_nan_is_hold (repeat (B64.bar_at 100) 8) 2 (snd (B64.reset B64.flat8))
           (B64.reach_reset _));
    [cbn; lia | reflexivity].
Defined.

(** ** When a step raises *)



(** The other errors of a step, run: OverflowError on a subnormal close,
    where [cash // price] is infinite, and ValueError on a NaN close. *)
Example float_errors64 :
  B64.py_floordiv 10000 0x0.00000000007e8p-1022 = OK infinity /\
  B64.outcome (B64.step 1 (snd (B64.reset B64.subnormal4))) = Raise OverflowError /\
  B64.outcome (B64.step 1 (snd (B64.reset (B64.init (repeat (B64.bar_at nan) 4) 1))))
    = Raise ValueError /\
  B64.outcome (B64.step 1 (snd (B64.reset B64.zero4))) = Raise ZeroDivisionError.
Proof. repeat split; vm_compute; reflexivity. Qed.

(** The product [action * max_buy] is rounded before [int] truncates it:
    with a close of 3000 the action nearest to 1/3 buys one share, since
    the double [(1/3) * 3] is 1.0. *)
Example rounded_size64 :
  B64.max_buy 10000 3000 = OK 3 /\
  B64.shares_bought 0x1.5555555555555p-2 3 = OK 1 /\
  B64.outcome (B64.step 0x1.5555555555555p-2
                 (snd (B64.reset (B64.init (repeat (B64.bar_at 3000) 4) 1))))
    = OK ((-0x1.47ae147ae147bp-7)%float, false, 7000%float, 1).
Proof. repeat split; vm_compute; reflexivity. Qed.

(** Holdings, too, can fall below zero: with 2^53 + 3 shares owned a full
    sell computes [int(1.0 * float(2^53 + 3)) = 2^53 + 4] shares. *)
Example holdings_go_negative64 :
  B64.stock_owned (B64.steps [0.5; 0x1.8p-52]%float (snd (B64.reset B64.half8)))
    = 9007199254740995 /\
  B64.shares_sold (-1) 9007199254740995 = OK 9007199254740996 /\
  B64.stock_owned (B64.steps [0.5; 0x1.8p-52; -1]%float (snd (B64.reset B64.half8)))
    = -1.
Proof. repeat split; vm_compute; reflexivity. Qed.

(** ** The chronological split in binary64 *)



(** The split sizes, run: eight rows at 0.8, ten at 0.7, a hundred at 0.29
    (the double [100 * 0.29] is below 29), and a NaN ratio. *)
Example train_size_examples64 :
  B64.train_size 8 0x1.999999999999ap-1 = OK 6 /\
  B64.train_size 10 0x1.6666666666666p-1 = OK 7 /\
  B64.train_size 100 0x1.28f5c28f5c28fp-2 = OK 28 /\
  B64.train_size 8 nan = Raise ValueError.
Proof. repeat split; vm_compute; reflexivity. Qed.
